(** * Blogicum: the view layer of [blog/views.py]

    A shallow embedding of the request handlers of the blog application.
    The relational store is threaded explicitly: a view is a function from
    the request and the store to the new store and the response.  The forms
    of [blog.forms] and the page size are parameters of the development;
    the two helpers of [blog.utils] are modelled after their description. *)

From Stdlib Require Import ZArith List String Bool Lia Sorted Permutation.
Import ListNotations.
Local Open Scope string_scope.
Local Open Scope Z_scope.

(** ** Rows of the store ([blog.models], [django.contrib.auth.models.User]) *)

(** Modelled from the spec: [User] comes from the framework; it is an
    identity (primary key, user name) with its editable profile fields. *)
Record User := mkUser {
  user_id : Z;
  username : string;
  user_profile : list (string * string)
}.

(** Modelled from the spec: [blog.models.Category] is not among the
    sources; a category has an id, a unique slug and a published flag. *)
Record Category := mkCategory {
  category_id : Z;
  category_slug : string;
  category_is_published : bool
}.

(** Modelled from the spec: [blog.models.Post] is not among the sources; a
    post has an id, an author (key of a [User]), a category (key of a
    [Category]), a published flag, timestamps and a body. *)
Record Post := mkPost {
  post_id : Z;
  post_author : Z;
  post_category : Z;
  post_is_published : bool;
  post_pub_date : Z;
  post_created_at : Z;
  post_body : string
}.

(** Modelled from the spec: [blog.models.Comment] is not among the sources;
    a comment has an id, its post (key of a [Post]), an author (key of a
    [User]), a body and a creation time. *)
Record Comment := mkComment {
  comment_id : Z;
  comment_post : Z;
  comment_author : Z;
  comment_body : string;
  comment_created_at : Z
}.

(** The relational store: one list of rows per table, in insertion order. *)
Record Store := mkStore {
  users : list User;
  categories : list Category;
  posts : list Post;
  comments : list Comment
}.

Definition set_posts (s : Store) (l : list Post) : Store :=
  {| users := users s; categories := categories s;
     posts := l; comments := comments s |}.

Definition set_comments (s : Store) (l : list Comment) : Store :=
  {| users := users s; categories := categories s;
     posts := posts s; comments := l |}.

Definition set_users (s : Store) (l : list User) : Store :=
  {| users := l; categories := categories s;
     posts := posts s; comments := comments s |}.

Definition set_post_author (p : Post) (a : Z) : Post :=
  {| post_id := post_id p; post_author := a;
     post_category := post_category p;
     post_is_published := post_is_published p;
     post_pub_date := post_pub_date p;
     post_created_at := post_created_at p;
     post_body := post_body p |}.

Definition set_post_id (p : Post) (i : Z) : Post :=
  {| post_id := i; post_author := post_author p;
     post_category := post_category p;
     post_is_published := post_is_published p;
     post_pub_date := post_pub_date p;
     post_created_at := post_created_at p;
     post_body := post_body p |}.

Definition set_comment_post (c : Comment) (p : Z) : Comment :=
  {| comment_id := comment_id c; comment_post := p;
     comment_author := comment_author c;
     comment_body := comment_body c;
     comment_created_at := comment_created_at c |}.

Definition set_comment_author (c : Comment) (a : Z) : Comment :=
  {| comment_id := comment_id c; comment_post := comment_post c;
     comment_author := a;
     comment_body := comment_body c;
     comment_created_at := comment_created_at c |}.

Definition set_comment_id (c : Comment) (i : Z) : Comment :=
  {| comment_id := i; comment_post := comment_post c;
     comment_author := comment_author c;
     comment_body := comment_body c;
     comment_created_at := comment_created_at c |}.

(** ** Saving and deleting rows ([Model.save], [Model.delete]) *)

(** The key given to a row inserted without one: above every key in use. *)
Definition fresh_id (ids : list Z) : Z :=
  fold_right Z.max 0 ids + 1.

(** [save()] of an instance that has no primary key yet: an INSERT. *)
Definition insert_post (s : Store) (p : Post) : Store :=
  set_posts s (posts s ++ [set_post_id p (fresh_id (map post_id (posts s)))]).

Definition insert_comment (s : Store) (c : Comment) : Store :=
  set_comments s
    (comments s ++ [set_comment_id c (fresh_id (map comment_id (comments s)))]).

(** [save()] of an instance that has a primary key: an UPDATE of the row
    with that key, and an INSERT under that key when there is no such row. *)
Definition update_post (s : Store) (p : Post) : Store :=
  if existsb (fun q => post_id q =? post_id p) (posts s)
  then set_posts s
         (map (fun q => if post_id q =? post_id p then p else q) (posts s))
  else set_posts s (posts s ++ [p]).

Definition update_comment (s : Store) (c : Comment) : Store :=
  if existsb (fun d => comment_id d =? comment_id c) (comments s)
  then set_comments s
         (map (fun d => if comment_id d =? comment_id c then c else d)
              (comments s))
  else set_comments s (comments s ++ [c]).

Definition update_user (s : Store) (u : User) : Store :=
  if existsb (fun v => user_id v =? user_id u) (users s)
  then set_users s
         (map (fun v => if user_id v =? user_id u then u else v) (users s))
  else set_users s (users s ++ [u]).

(** Modelled from the spec: a comment holds an owner reference to its post,
    so deleting a post removes the post's row and the comments it owns. *)
Definition delete_post_row (s : Store) (p : Post) : Store :=
  {| users := users s; categories := categories s;
     posts := filter (fun q => negb (post_id q =? post_id p)) (posts s);
     comments :=
       filter (fun c => negb (comment_post c =? post_id p)) (comments s) |}.

Definition delete_comment_row (s : Store) (c : Comment) : Store :=
  set_comments s
    (filter (fun d => negb (comment_id d =? comment_id c)) (comments s)).

(** ** Requests and responses ([django.http], [django.shortcuts]) *)

Definition QueryDict := list (string * string).

Inductive Method := GET | POST.

(** [request_user] is [None] for an anonymous visitor.  [request_page] is
    the [page] parameter of the query string, [None] when it is absent or
    is not an integer. *)
Record Request := mkRequest {
  request_method : Method;
  request_user : option User;
  request_page : option Z;
  request_POST : QueryDict;
  request_FILES : QueryDict
}.

Definition method_is_POST (m : Method) : bool :=
  match m with POST => true | GET => false end.

(** The named routes the views redirect to. *)
Inductive Route :=
| blog_index
| blog_post_detail (post_id : Z)
| blog_profile (username : string)
| login.

(** Python's [x or None] on a query dictionary: an empty one is falsy. *)
Definition or_None (q : QueryDict) : option QueryDict :=
  match q with
  | [] => None
  | _ :: _ => Some q
  end.

(** ** Forms ([django.forms.ModelForm]; the classes of [blog.forms]) *)

(** A form object: the data and files it was built from and the instance
    it edits. *)
Record Form (A : Type) := mkForm {
  form_data : option QueryDict;
  form_files : option QueryDict;
  form_instance : option A
}.
Arguments mkForm {A} _ _ _.
Arguments form_data {A} _.
Arguments form_files {A} _.
Arguments form_instance {A} _.

(** Modelled from the spec: [blog.forms] is not among the sources.  A form
    class is known by the errors its validation reports on a submission
    (which may consult the store and the edited instance) and by the
    instance it builds from a submission; with no instance to edit the
    form starts from a new instance of its model. *)
Record FormClass (A : Type) := mkFormClass {
  form_errors : Store -> QueryDict -> QueryDict -> option A -> list string;
  construct_instance : QueryDict -> QueryDict -> option A -> A
}.
Arguments form_errors {A} _ _ _ _ _.
Arguments construct_instance {A} _ _ _ _.

Definition or_empty (q : option QueryDict) : QueryDict :=
  match q with
  | Some d => d
  | None => []
  end.

Definition is_bound {A} (f : Form A) : bool :=
  match form_data f, form_files f with
  | None, None => false
  | _, _ => true
  end.

(** [form.errors]: an unbound form has none. *)
Definition errors {A} (F : FormClass A) (s : Store) (f : Form A)
  : list string :=
  if is_bound f
  then form_errors F s (or_empty (form_data f)) (or_empty (form_files f))
         (form_instance f)
  else [].

(** [form.is_valid()]: bound and without errors. *)
Definition is_valid {A} (F : FormClass A) (s : Store) (f : Form A) : bool :=
  is_bound f &&
  match errors F s f with
  | [] => true
  | _ :: _ => false
  end.

(** [form.save(commit=False)]: the instance carrying the submitted data. *)
Definition save_commit_False {A} (F : FormClass A) (f : Form A) : A :=
  construct_instance F (or_empty (form_data f)) (or_empty (form_files f))
    (form_instance f).

(** ** Template contexts and responses *)

Record Page := mkPage {
  object_list : list Post;
  number : Z;
  num_pages : Z
}.

Inductive Value :=
| VPage (page_obj : Page)
| VCategory (category : Category)
| VProfile (profile : User)
| VPost (post : Post)
| VComment (comment : Comment)
| VComments (comments : list Comment)
| VPostForm (form : Form Post)
| VCommentForm (form : Form Comment)
| VProfileForm (form : Form User).

Definition Context := list (string * Value).

(** What a view hands back: a rendered template, a redirect (HTTP 302), the
    not-found page raised by [get_object_or_404], or the server error of a
    lookup that matches several rows. *)
Inductive Response :=
| render (template : string) (context : Context)
| redirect (to : Route)
| Http404
| MultipleObjectsReturned.

(** ** [get_object_or_404] *)

Inductive Lookup (A : Type) :=
| Found (a : A)
| NotFound
| Multiple.
Arguments Found {A} _.
Arguments NotFound {A}.
Arguments Multiple {A}.

(** [QuerySet.get]: the one row satisfying the conditions. *)
Definition get {A} (rows : list A) (cond : A -> bool) : Lookup A :=
  match filter cond rows with
  | [] => NotFound
  | [a] => Found a
  | _ :: _ :: _ => Multiple
  end.

(** [get_object_or_404] followed by the rest of the view. *)
Definition get_object_or_404 {A} (rows : list A) (cond : A -> bool)
    (s : Store) (k : A -> Store * Response) : Store * Response :=
  match get rows cond with
  | Found a => k a
  | NotFound => (s, Http404)
  | Multiple => (s, MultipleObjectsReturned)
  end.

(** ** The helpers of [blog.utils] *)

(** Modelled from the spec: [blog.utils.query_post] is not among the
    sources.  Its default filter keeps the posts that are published, whose
    category is published, and that are not dated in the future; [now] is
    the reading of the clock when the query is made. *)
Definition visible (now : Z) (s : Store) (p : Post) : bool :=
  post_is_published p
  && existsb (fun c => (category_id c =? post_category p)
                       && category_is_published c) (categories s)
  && (post_pub_date p <=? now).

(** Modelled from the spec: [query_post(manager, filters)] returns the rows
    of [manager], through the default filter unless [filters] is false.
    The spec names no ordering, so the rows keep the order of the table. *)
Definition query_post (now : Z) (s : Store) (manager : list Post)
    (filters : bool) : list Post :=
  if filters then filter (visible now s) manager else manager.

(** Modelled from the spec: [blog.utils.posts_pagination] is not among the
    sources; it delegates to the framework's paginator.  [get_page] gives
    page 1 when no page number is given and the last page when the number
    is out of range; an empty listing still has one (empty) page. *)
Definition paginator_num_pages (per_page : positive) (count : nat) : Z :=
  Z.max 1 ((Z.of_nat count + Z.pos per_page - 1) / Z.pos per_page).

Definition get_page (per_page : positive) (page : option Z)
    (l : list Post) : Page :=
  let last := paginator_num_pages per_page (List.length l) in
  let n := match page with
           | None => 1
           | Some k => if (1 <=? k) && (k <=? last) then k else last
           end in
  {| object_list :=
       firstn (Pos.to_nat per_page)
              (skipn (Z.to_nat ((n - 1) * Z.pos per_page)) l);
     number := n;
     num_pages := last |}.

(** [queryset.order_by('created_at')], oldest first, ties in table order. *)
Fixpoint insert_by_created_at (c : Comment) (l : list Comment)
  : list Comment :=
  match l with
  | [] => [c]
  | d :: l' =>
      if comment_created_at c <=? comment_created_at d
      then c :: d :: l'
      else d :: insert_by_created_at c l'
  end.

Definition order_by_created_at (l : list Comment) : list Comment :=
  fold_right insert_by_created_at [] l.

(** [post.author != request.user] and its like: model instances are equal
    when their primary keys are; the anonymous user equals no one. *)
Definition is_user (u : option User) (pk : Z) : bool :=
  match u with
  | Some v => user_id v =? pk
  | None => false
  end.

(** [@login_required]: an anonymous visitor is sent to the login page. *)
Definition login_required (request : Request) (s : Store)
    (view : User -> Store * Response) : Store * Response :=
  match request_user request with
  | Some user => view user
  | None => (s, redirect login)
  end.

(** ** The views of [blog/views.py] *)

Section Views.

(** The form classes of [blog.forms] and the page size of [blog.utils],
    none of which is among the sources. *)
Variable PostForm : FormClass Post.
Variable CommentForm : FormClass Comment.
Variable ProfileForm : FormClass User.
Variable POSTS_ON_PAGE : positive.

Definition posts_pagination (request : Request) (l : list Post) : Page :=
  get_page POSTS_ON_PAGE (request_page request) l.

Definition index (now : Z) (request : Request) (s : Store)
  : Store * Response :=
  let page_obj := posts_pagination request (query_post now s (posts s) true) in
  (s, render "blog/index.html" [("page_obj", VPage page_obj)]).

Definition category_posts (now : Z) (request : Request) (slug : string)
    (s : Store) : Store * Response :=
  get_object_or_404 (categories s)
    (fun c => (category_slug c =? slug)%string && category_is_published c) s
    (fun category =>
       let category_posts_manager :=
         filter (fun p => post_category p =? category_id category) (posts s) in
       let page_obj :=
         posts_pagination request
           (query_post now s category_posts_manager true) in
       (s, render "blog/category.html"
             [("category", VCategory category); ("page_obj", VPage page_obj)])).

Definition post_detail (now : Z) (request : Request) (pid : Z) (s : Store)
  : Store * Response :=
  let page post :=
    let comments :=
      order_by_created_at
        (filter (fun c => comment_post c =? post_id post) (comments s)) in
    let form := mkForm None None None in
    (s, render "blog/detail.html"
          [("post", VPost post); ("form", VCommentForm form);
           ("comments", VComments comments)]) in
  get_object_or_404 (posts s) (fun p => post_id p =? pid) s
    (fun post =>
       if negb (is_user (request_user request) (post_author post))
       then get_object_or_404 (query_post now s (posts s) true)
              (fun p => post_id p =? pid) s page
       else page post).

Definition create_post (request : Request) (s : Store) : Store * Response :=
  login_required request s (fun user =>
    let form := mkForm (or_None (request_POST request))
                       (or_None (request_FILES request)) None in
    if is_valid PostForm s form then
      let post := save_commit_False PostForm form in
      let post := set_post_author post (user_id user) in
      (insert_post s post, redirect (blog_profile (username user)))
    else (s, render "blog/create.html" [("form", VPostForm form)])).

Definition edit_post (request : Request) (pid : Z) (s : Store)
  : Store * Response :=
  login_required request s (fun user =>
    get_object_or_404 (posts s) (fun p => post_id p =? pid) s (fun post =>
      if negb (user_id user =? post_author post)
      then (s, redirect (blog_post_detail pid))
      else
        let form := mkForm (or_None (request_POST request)) None (Some post) in
        if is_valid PostForm s form
        then (update_post s (save_commit_False PostForm form),
              redirect (blog_post_detail pid))
        else (s, render "blog/create.html" [("form", VPostForm form)]))).

Definition delete_post (request : Request) (pid : Z) (s : Store)
  : Store * Response :=
  login_required request s (fun user =>
    get_object_or_404 (posts s) (fun p => post_id p =? pid) s (fun post =>
      if negb (user_id user =? post_author post)
      then (s, redirect (blog_post_detail pid))
      else if method_is_POST (request_method request)
      then (delete_post_row s post, redirect blog_index)
      else (s, render "blog/create.html"
                 [("form", VPostForm (mkForm None None (Some post)))]))).

Definition profile (now : Z) (request : Request) (name : string) (s : Store)
  : Store * Response :=
  get_object_or_404 (users s) (fun u => (username u =? name)%string) s
    (fun profile =>
       let profile_posts :=
         filter (fun p => post_author p =? user_id profile) (posts s) in
       let posts :=
         query_post now s profile_posts
           (negb (is_user (request_user request) (user_id profile))) in
       let page_obj := posts_pagination request posts in
       (s, render "blog/profile.html"
             [("profile", VProfile profile); ("page_obj", VPage page_obj)])).

(** The form edits [request.user] itself, so the redirect after a save
    names the user as the form left it. *)
Definition edit_profile (request : Request) (s : Store) : Store * Response :=
  login_required request s (fun user =>
    let form := mkForm (Some (request_POST request)) None (Some user) in
    if is_valid ProfileForm s form then
      let user := save_commit_False ProfileForm form in
      (update_user s user, redirect (blog_profile (username user)))
    else (s, render "blog/user.html" [("form", VProfileForm form)])).

Definition add_comment (request : Request) (pid : Z) (s : Store)
  : Store * Response :=
  login_required request s (fun user =>
    get_object_or_404 (posts s) (fun p => post_id p =? pid) s (fun post =>
      let form := mkForm (or_None (request_POST request)) None None in
      let s' :=
        if is_valid CommentForm s form then
          let comment := save_commit_False CommentForm form in
          let comment := set_comment_post comment (post_id post) in
          let comment := set_comment_author comment (user_id user) in
          insert_comment s comment
        else s in
      (s', redirect (blog_post_detail pid)))).

Definition edit_comment (request : Request) (pid cid : Z) (s : Store)
  : Store * Response :=
  login_required request s (fun user =>
    get_object_or_404 (comments s) (fun c => comment_id c =? cid) s
      (fun comment =>
         if negb (user_id user =? comment_author comment)
         then (s, redirect (blog_post_detail pid))
         else
           let form :=
             mkForm (or_None (request_POST request)) None (Some comment) in
           if is_valid CommentForm s form
           then (update_comment s (save_commit_False CommentForm form),
                 redirect (blog_post_detail pid))
           else (s, render "blog/comment.html"
                      [("form", VCommentForm form);
                       ("comment", VComment comment)]))).

Definition delete_comment (request : Request) (pid cid : Z) (s : Store)
  : Store * Response :=
  login_required request s (fun user =>
    get_object_or_404 (comments s) (fun c => comment_id c =? cid) s
      (fun comment =>
         if negb (user_id user =? comment_author comment)
         then (s, redirect (blog_post_detail pid))
         else if method_is_POST (request_method request)
         then (delete_comment_row s comment, redirect (blog_post_detail pid))
         else (s, render "blog/comment.html" [("comment", VComment comment)]))).

End Views.

(** ** The mutating views of a post or a comment, as the router reaches them *)

Inductive MutatingView :=
| EditPost (pid : Z)
| DeletePost (pid : Z)
| EditComment (pid cid : Z)
| DeleteComment (pid cid : Z).

Definition dispatch (PostForm : FormClass Post) (CommentForm : FormClass Comment)
    (v : MutatingView) (request : Request) (s : Store) : Store * Response :=
  match v with
  | EditPost pid => edit_post PostForm request pid s
  | DeletePost pid => delete_post request pid s
  | EditComment pid cid => edit_comment CommentForm request pid cid s
  | DeleteComment pid cid => delete_comment request pid cid s
  end.

(** The post id carried by the URL of the view. *)
Definition url_post_id (v : MutatingView) : Z :=
  match v with
  | EditPost pid | DeletePost pid => pid
  | EditComment pid _ | DeleteComment pid _ => pid
  end.

Definition Entity : Type := (Post + Comment)%type.

Definition lookup_map {A B} (f : A -> B) (l : Lookup A) : Lookup B :=
  match l with
  | Found a => Found (f a)
  | NotFound => NotFound
  | Multiple => Multiple
  end.

(** The row a mutating view works on. *)
Definition target (s : Store) (v : MutatingView) : Lookup Entity :=
  match v with
  | EditPost pid | DeletePost pid =>
      lookup_map inl (get (posts s) (fun p => post_id p =? pid))
  | EditComment _ cid | DeleteComment _ cid =>
      lookup_map inr (get (comments s) (fun c => comment_id c =? cid))
  end.

Definition entity_author (e : Entity) : Z :=
  match e with
  | inl post => post_author post
  | inr comment => comment_author comment
  end.

(** The read-only page showing an entity: the detail page of the post, or
    of the post a comment belongs to. *)
Definition entity_detail (e : Entity) : Route :=
  match e with
  | inl post => blog_post_detail (post_id post)
  | inr comment => blog_post_detail (comment_post comment)
  end.

(** The URL of a view agrees with its target when the post id it carries
    is the one of the post the target is, or belongs to. *)
Definition url_consistent (e : Entity) (v : MutatingView) : bool :=
  match e with
  | inl post => post_id post =? url_post_id v
  | inr comment => comment_post comment =? url_post_id v
  end.

(** A redirect to a post's detail page, sent to another post's page. *)
Definition retarget (pid : Z) (r : Response) : Response :=
  match r with
  | redirect (blog_post_detail _) => redirect (blog_post_detail pid)
  | _ => r
  end.

(** ** Forms and pages of the views *)

(** The page [post_detail] renders for a post. *)
Definition detail_page (s : Store) (post : Post) : Response :=
  render "blog/detail.html"
    [("post", VPost post);
     ("form", VCommentForm (mkForm None None None));
     ("comments",
      VComments
        (order_by_created_at
           (filter (fun c => comment_post c =? post_id post) (comments s))))].

(** The form [create_post] builds from a request. *)
Definition create_post_form (request : Request) : Form Post :=
  mkForm (or_None (request_POST request)) (or_None (request_FILES request))
    None.

(** The form [add_comment] builds from a request. *)
Definition add_comment_form (request : Request) : Form Comment :=
  mkForm (or_None (request_POST request)) None None.

(** The page [category_posts] renders for a category. *)
Definition category_page (POSTS_ON_PAGE : positive) (now : Z)
    (request : Request) (s : Store) (c : Category) : Response :=
  render "blog/category.html"
    [("category", VCategory c);
     ("page_obj",
      VPage
        (posts_pagination POSTS_ON_PAGE request
           (query_post now s
              (filter (fun p => post_category p =? category_id c) (posts s))
              true)))].

(** ** Conditions on posts, forms and requests *)

(** A post is hidden when it is unpublished, or its category is
    unpublished, or it is dated after the reading [now] of the clock. *)
Definition hidden (now : Z) (s : Store) (p : Post) : Prop :=
  post_is_published p = false
  \/ (exists c, get (categories s) (fun c => category_id c =? post_category p)
                = Found c
                /\ category_is_published c = false)
  \/ now < post_pub_date p.

(** Modelled from the spec: [blog.forms.ProfileForm] is not among the
    sources; the spec expects an empty submission bound to it to fail
    validation. *)
Definition rejects_empty_submission (ProfileForm : FormClass User)
    (s : Store) (user : User) : Prop :=
  form_errors ProfileForm s [] [] (Some user) <> [].

(** The framework parses a body only for a POST request: a GET request
    carries no submitted data and no files. *)
Definition well_formed (request : Request) : Prop :=
  request_method request = GET ->
  request_POST request = [] /\ request_FILES request = [].

(** ** A small blog, for examples *)

Definition QueryDict_get (key : string) (q : QueryDict) : string :=
  match find (fun kv => (fst kv =? key)%string) q with
  | Some kv => snd kv
  | None => ""
  end.

(** A form class with one required field. *)
Definition required_field {A} (field : string) (blank : A)
    (set : A -> string -> A) : FormClass A :=
  {| form_errors := fun _ data _ _ =>
       if (QueryDict_get field data =? "")%string
       then [field ++ ": This field is required."]
       else [];
     construct_instance := fun data _ instance =>
       set (match instance with Some a => a | None => blank end)
           (QueryDict_get field data) |}.

Definition demo_PostForm : FormClass Post :=
  required_field "text" (mkPost 0 0 1 true 0 0 "")
    (fun p t => mkPost (post_id p) (post_author p) (post_category p)
                  (post_is_published p) (post_pub_date p)
                  (post_created_at p) t).

Definition demo_CommentForm : FormClass Comment :=
  required_field "text" (mkComment 0 0 0 "" 0)
    (fun c t => mkComment (comment_id c) (comment_post c) (comment_author c)
                  t (comment_created_at c)).

Definition demo_ProfileForm : FormClass User :=
  required_field "username" (mkUser 0 "" [])
    (fun u n => mkUser (user_id u) n (user_profile u)).

Definition alice : User := mkUser 1 "alice" [].
Definition bob : User := mkUser 2 "bob" [].

Definition travel : Category := mkCategory 1 "travel" true.
Definition drafts : Category := mkCategory 2 "drafts" false.

(** Posts of alice: a visible one, an unpublished one, one in an
    unpublished category and one dated at time 50. *)
Definition post1 : Post := mkPost 1 1 1 true 10 10 "first".
Definition post2 : Post := mkPost 2 1 1 false 10 10 "draft".
Definition post3 : Post := mkPost 3 1 2 true 10 10 "filed under drafts".
Definition post4 : Post := mkPost 4 1 1 true 50 10 "scheduled".

(** A comment of alice on her first post. *)
Definition comment1 : Comment := mkComment 1 1 1 "hello" 11.

Definition demo_store : Store :=
  mkStore [alice; bob] [travel; drafts] [post1; post2; post3; post4] [comment1].

(** The small blog once more posts have come in. *)
Definition post5 : Post := mkPost 5 2 1 true 12 12 "second".
Definition post6 : Post := mkPost 6 2 1 true 14 14 "third".

Definition busy_store : Store :=
  mkStore [alice; bob] [travel; drafts]
    [post1; post2; post3; post4; post5; post6] [comment1].

Definition demo_request (m : Method) (u : option User) (data : QueryDict)
  : Request :=
  mkRequest m u None data [].

(** ** All the views, as the router reaches them *)

Inductive View :=
| Index
| CategoryPosts (slug : string)
| PostDetail (pid : Z)
| Profile (name : string)
| CreatePost
| EditProfile
| AddComment (pid : Z)
| Mutating (v : MutatingView).

Definition handle (PostForm : FormClass Post) (CommentForm : FormClass Comment)
    (ProfileForm : FormClass User) (POSTS_ON_PAGE : positive) (now : Z)
    (v : View) (request : Request) (s : Store) : Store * Response :=
  match v with
  | Index => index POSTS_ON_PAGE now request s
  | CategoryPosts slug => category_posts POSTS_ON_PAGE now request slug s
  | PostDetail pid => post_detail now request pid s
  | Profile name => profile POSTS_ON_PAGE now request name s
  | CreatePost => create_post PostForm request s
  | EditProfile => edit_profile ProfileForm request s
  | AddComment pid => add_comment CommentForm request pid s
  | Mutating v => dispatch PostForm CommentForm v request s
  end.

(** The views decorated with [@login_required]. *)
Definition requires_login (v : View) : bool :=
  match v with
  | CreatePost | EditProfile | AddComment _ | Mutating _ => true
  | Index | CategoryPosts _ | PostDetail _ | Profile _ => false
  end.

(** The views that save or delete rows of the post table, and of the
    comment table (deleting a post takes its comments along). *)
Definition writes_posts (v : View) : bool :=
  match v with
  | CreatePost | Mutating (EditPost _) | Mutating (DeletePost _) => true
  | _ => false
  end.

Definition writes_comments (v : View) : bool :=
  match v with
  | AddComment _ | Mutating (EditComment _ _) | Mutating (DeleteComment _ _)
  | Mutating (DeletePost _) => true
  | _ => false
  end.

Definition writes_users (v : View) : bool :=
  match v with
  | EditProfile => true
  | _ => false
  end.

(** Primary keys are unique in every table. *)
Definition unique_keys (s : Store) : Prop :=
  NoDup (map user_id (users s))
  /\ NoDup (map category_id (categories s))
  /\ NoDup (map post_id (posts s))
  /\ NoDup (map comment_id (comments s)).

(** User names and category slugs are unique as well. *)
Definition unique_names (s : Store) : Prop :=
  NoDup (map username (users s)) /\ NoDup (map category_slug (categories s)).

(** The comments shown on the detail page of a post. *)
Definition detail_comments (s : Store) (pid : Z) : list Comment :=
  order_by_created_at (filter (fun c => comment_post c =? pid) (comments s)).

(** The order of the comments on a page: oldest first. *)
Definition older (c d : Comment) : Prop :=
  comment_created_at c <= comment_created_at d.

(** The forms [edit_post] and [edit_comment] build from a request. *)
Definition edit_post_form (request : Request) (post : Post) : Form Post :=
  mkForm (or_None (request_POST request)) None (Some post).

Definition edit_comment_form (request : Request) (comment : Comment)
  : Form Comment :=
  mkForm (or_None (request_POST request)) None (Some comment).

(** The page [profile] renders for a user and a listing. *)
Definition profile_page (POSTS_ON_PAGE : positive) (request : Request)
    (u : User) (listing : list Post) : Response :=
  render "blog/profile.html"
    [("profile", VProfile u);
     ("page_obj", VPage (posts_pagination POSTS_ON_PAGE request listing))].

(** A profile form without a required field. *)
Definition demo_open_ProfileForm : FormClass User :=
  {| form_errors := fun _ _ _ _ => [];
     construct_instance := fun data _ instance =>
       let u := match instance with Some a => a | None => mkUser 0 "" [] end in
       mkUser (user_id u) (username u) data |}.

(** ** Lookups *)

Section Lookups.

Context {A : Type}.
Implicit Types (rows : list A) (cond keep : A -> bool).

Lemma filter_swap rows cond keep :
  filter cond (filter keep rows) = filter keep (filter cond rows).
Proof.
  induction rows as [|a rows IH]; simpl; [reflexivity|].
  destruct (keep a) eqn:Hk, (cond a) eqn:Hc; simpl;
    rewrite ?Hk, ?Hc, IH; reflexivity.
Qed.

Lemma filter_andb rows cond keep :
  filter (fun a => cond a && keep a) rows = filter keep (filter cond rows).
Proof.
  induction rows as [|a rows IH]; simpl; [reflexivity|].
  destruct (cond a); simpl; [destruct (keep a)|]; rewrite IH; reflexivity.
Qed.

Lemma filter_none rows cond :
  (forall a, In a rows -> cond a = false) -> filter cond rows = [].
Proof.
  induction rows as [|a rows IH]; simpl; intros H; [reflexivity|].
  rewrite (H a (or_introl eq_refl)). apply IH. intros b Hb. apply H. now right.
Qed.

Lemma get_Found rows cond a :
  get rows cond = Found a -> In a rows /\ cond a = true.
Proof.
  unfold get. destruct (filter cond rows) as [|x [|y l]] eqn:E; try discriminate.
  intros [= ->]. apply filter_In. rewrite E. now left.
Qed.

Lemma get_Found_filter rows cond a :
  get rows cond = Found a -> filter cond rows = [a].
Proof.
  unfold get. destruct (filter cond rows) as [|x [|y l]]; try discriminate.
  now intros [= ->].
Qed.

Lemma get_NotFound rows cond :
  (forall a, In a rows -> cond a = false) -> get rows cond = NotFound.
Proof. intros H. unfold get. now rewrite filter_none. Qed.

(** Looking a row up among the rows that pass a filter. *)
Lemma get_filter rows cond keep a :
  get rows cond = Found a ->
  get (filter keep rows) cond = if keep a then Found a else NotFound.
Proof.
  intros H. unfold get. rewrite filter_swap, (get_Found_filter _ _ _ H). simpl.
  now destruct (keep a).
Qed.

Lemma get_filter_NotFound rows cond keep :
  get rows cond = NotFound -> get (filter keep rows) cond = NotFound.
Proof.
  unfold get. rewrite filter_swap.
  destruct (filter cond rows) as [|x [|y l]]; try discriminate.
  reflexivity.
Qed.

(** A unique key finds its row, and nothing else. *)
Lemma filter_unique_key {K} (eqb : K -> K -> bool) (key : A -> K) rows a :
  (forall x y, eqb x y = true <-> x = y) ->
  NoDup (map key rows) -> In a rows ->
  filter (fun b => eqb (key b) (key a)) rows = [a].
Proof.
  intros Heqb. induction rows as [|b rows IH]; simpl; intros Hnd Hin; [easy|].
  inversion Hnd as [|? ? Hnotin Hnd']; subst.
  destruct Hin as [->|Hin].
  - rewrite (proj2 (Heqb _ _) eq_refl). f_equal.
    apply filter_none. intros c Hc.
    destruct (eqb (key c) (key a)) eqn:E; [|reflexivity].
    apply Heqb in E. exfalso. apply Hnotin. rewrite <- E. now apply in_map.
  - destruct (eqb (key b) (key a)) eqn:E; [|now apply IH].
    apply Heqb in E. exfalso. apply Hnotin. rewrite E. now apply in_map.
Qed.

End Lookups.

(** A fresh key is not a key in use. *)
Lemma fresh_id_above ids i : In i ids -> i < fresh_id ids.
Proof.
  unfold fresh_id. induction ids as [|j ids IH]; simpl; [easy|].
  intros [->|H]; [lia|]. specialize (IH H). lia.
Qed.

Lemma fresh_id_not_in ids : ~ In (fresh_id ids) ids.
Proof. intros H. apply fresh_id_above in H. lia. Qed.

Lemma is_user_false (user : User) (pk : Z) :
  user_id user <> pk -> (user_id user =? pk) = false.
Proof. intros H. now apply Z.eqb_neq. Qed.

(** ** Refusal of a non-author *)

(** What the mutating views do for a user who is not the author. *)
Lemma dispatch_non_author PostForm CommentForm v request s user e :
  request_user request = Some user ->
  target s v = Found e ->
  user_id user <> entity_author e ->
  dispatch PostForm CommentForm v request s
  = (s, redirect (blog_post_detail (url_post_id v))).
Proof.
  intros Hu Ht Hne.
  destruct v as [pid|pid|pid cid|pid cid]; simpl in *;
    unfold edit_post, delete_post, edit_comment, delete_comment,
      login_required, get_object_or_404;
    rewrite Hu;
    match type of Ht with
    | lookup_map _ ?g = _ => destruct g as [x| |]; try discriminate
    end;
    simpl in Ht; injection Ht as <-; simpl in Hne;
    now rewrite (is_user_false _ _ Hne).
Qed.

(** C1, as stated, fails: bob asks to edit alice's comment on post 1 under
    the URL of post 2; the comment is left alone, but the redirect goes to
    the page of post 2, which is not the page of the comment's post. *)
Lemma edit_comment_redirect_follows_url :
  let request := demo_request GET (Some bob) [] in
  let v := EditComment 2 1 in
  target demo_store v = Found (inr comment1)
  /\ user_id bob <> entity_author (inr comment1)
  /\ dispatch demo_PostForm demo_CommentForm v request demo_store
     = (demo_store, redirect (blog_post_detail 2))
  /\ dispatch demo_PostForm demo_CommentForm v request demo_store
     <> (demo_store, redirect (entity_detail (inr comment1))).
Proof.
  cbv zeta. repeat split; try reflexivity; vm_compute; discriminate.
Qed.

(** C1 (amended): a mutating view on a post or a comment, asked for by an
    authenticated user who is not the author of the target, leaves the whole
    store as it was and answers with a redirect to the detail page of the
    post id carried by the URL; that page is the target's own read-only page
    whenever the URL agrees with the target, which it always does for a
    post. *)
Theorem non_author_is_redirected PostForm CommentForm v request s user e :
  request_user request = Some user ->
  target s v = Found e ->
  user_id user <> entity_author e ->
  dispatch PostForm CommentForm v request s
  = (s, redirect (blog_post_detail (url_post_id v)))
  /\ (url_consistent e v = true ->
      blog_post_detail (url_post_id v) = entity_detail e)
  /\ (forall post, e = inl post -> url_consistent e v = true).
Proof.
  intros Hu Ht Hne. split; [now apply dispatch_non_author with user e|].
  split.
  - destruct e as [post|comment]; simpl; intros H;
      apply Z.eqb_eq in H; now rewrite H.
  - intros post ->.
    destruct v as [pid|pid|pid cid|pid cid]; simpl in *;
      match type of Ht with
      | lookup_map _ ?g = _ => destruct g as [x| |] eqn:G; try discriminate
      end;
      simpl in Ht; injection Ht as <-;
      apply get_Found in G; tauto.
Qed.

Lemma non_author_is_redirected_witness :
  let request := demo_request POST (Some bob) [] in
  (request_user request = Some bob
   /\ target demo_store (DeletePost 1) = Found (inl post1)
   /\ user_id bob <> entity_author (inl post1))
  /\ dispatch demo_PostForm demo_CommentForm (DeletePost 1) request demo_store
     = (demo_store, redirect (blog_post_detail 1))
  /\ (url_consistent (inl post1) (DeletePost 1) = true ->
      blog_post_detail 1 = entity_detail (inl post1))
  /\ (forall post, @inl Post Comment post1 = inl post ->
      url_consistent (inl post1) (DeletePost 1) = true).
Proof.
  cbv zeta.
  assert (Hne : user_id bob <> entity_author (inl post1)) by (simpl; lia).
  split; [split; [reflexivity | split; [reflexivity | exact Hne]]|].
  apply (non_author_is_redirected demo_PostForm demo_CommentForm
           (DeletePost 1) (demo_request POST (Some bob) []) demo_store bob
           (inl post1)).
  - reflexivity.
  - reflexivity.
  - exact Hne.
Defined.

(** ** Hidden posts *)

Lemma hidden_not_visible now s p : hidden now s p -> visible now s p = false.
Proof.
  unfold visible. intros [H|[[c [Hc Hp]]|H]].
  - now rewrite H.
  - assert (E : existsb (fun c => (category_id c =? post_category p)
                                  && category_is_published c) (categories s)
                = false).
    { apply not_true_is_false. intros E.
      apply existsb_exists in E as [c' [Hin Hc']].
      apply andb_prop in Hc' as [Hid Hpub].
      assert (Hf : In c' (filter (fun c => category_id c =? post_category p)
                            (categories s))) by (apply filter_In; auto).
      rewrite (get_Found_filter _ _ _ Hc) in Hf.
      destruct Hf as [<-|[]]. congruence. }
    rewrite E. now rewrite andb_false_r.
  - apply Z.leb_gt in H. rewrite H. apply andb_false_r.
Qed.

Lemma post_detail_non_author_hidden now request s P :
  get (posts s) (fun p => post_id p =? post_id P) = Found P ->
  hidden now s P ->
  is_user (request_user request) (post_author P) = false ->
  post_detail now request (post_id P) s = (s, Http404).
Proof.
  intros Hget Hh Hu. unfold post_detail, get_object_or_404, query_post.
  rewrite Hget, Hu. simpl.
  rewrite (get_filter _ _ (visible now s) _ Hget).
  now rewrite (hidden_not_visible _ _ _ Hh).
Qed.

Lemma post_detail_missing now request s pid :
  (forall p, In p (posts s) -> post_id p <> pid) ->
  post_detail now request pid s = (s, Http404).
Proof.
  intros H. unfold post_detail, get_object_or_404.
  rewrite get_NotFound; [reflexivity|].
  intros p Hp. apply Z.eqb_neq. now apply H.
Qed.

(** C2: a hidden post (unpublished, in an unpublished category, or dated in
    the future) is not found by a requester who is not its author, and is
    rendered to its author. *)
Theorem post_detail_of_hidden_post now request s P :
  get (posts s) (fun p => post_id p =? post_id P) = Found P ->
  hidden now s P ->
  (is_user (request_user request) (post_author P) = false ->
   post_detail now request (post_id P) s = (s, Http404))
  /\ (is_user (request_user request) (post_author P) = true ->
      post_detail now request (post_id P) s = (s, detail_page s P)).
Proof.
  intros Hget Hh. split; intros Hu.
  - now apply post_detail_non_author_hidden.
  - unfold post_detail, get_object_or_404. now rewrite Hget, Hu.
Qed.

Lemma post_detail_of_hidden_post_witness :
  (get (posts demo_store) (fun p => post_id p =? post_id post4) = Found post4
   /\ hidden 20 demo_store post4)
  /\ post_detail 20 (demo_request GET (Some bob) []) 4 demo_store
     = (demo_store, Http404)
  /\ post_detail 20 (demo_request GET None []) 4 demo_store
     = (demo_store, Http404)
  /\ post_detail 20 (demo_request GET (Some alice) []) 4 demo_store
     = (demo_store, detail_page demo_store post4).
Proof.
  assert (Hget : get (posts demo_store) (fun p => post_id p =? post_id post4)
                 = Found post4) by reflexivity.
  assert (Hh : hidden 20 demo_store post4) by (right; right; simpl; lia).
  split; [now split|].
  split; [|split].
  - apply (proj1 (post_detail_of_hidden_post 20
                    (demo_request GET (Some bob) []) demo_store post4 Hget Hh)).
    reflexivity.
  - apply (proj1 (post_detail_of_hidden_post 20
                    (demo_request GET None []) demo_store post4 Hget Hh)).
    reflexivity.
  - apply (proj2 (post_detail_of_hidden_post 20
                    (demo_request GET (Some alice) []) demo_store post4 Hget Hh)).
    reflexivity.
Defined.

(** ** Creating a post *)

(** C3, as stated, fails on missing data: alice opens the creation page
    with an empty request; nothing is saved and the form is rendered, but
    the form is unbound and carries no validation error. *)
Lemma create_post_blank_form_has_no_errors :
  let request := demo_request GET (Some alice) [] in
  is_valid demo_PostForm demo_store (create_post_form request) = false
  /\ create_post demo_PostForm request demo_store
     = (demo_store,
        render "blog/create.html"
          [("form", VPostForm (create_post_form request))])
  /\ ~ errors demo_PostForm demo_store (create_post_form request) <> [].
Proof.
  cbv zeta. split; [reflexivity|]. split; [reflexivity|].
  intros H. apply H. reflexivity.
Qed.

(** C3 (amended): for an authenticated user U, [create_post] with valid
    submitted data appends exactly one post, whose author is U, leaves the
    other tables alone and redirects to U's profile; otherwise it saves
    nothing and renders the form, which carries validation errors when data
    was submitted and none when the submission is missing. *)
Theorem create_post_outcome PostForm request s user :
  request_user request = Some user ->
  let form := create_post_form request in
  (is_valid PostForm s form = true ->
   exists post,
     create_post PostForm request s
     = (set_posts s (posts s ++ [post]),
        redirect (blog_profile (username user)))
     /\ post_author post = user_id user
     /\ ~ In (post_id post) (map post_id (posts s)))
  /\ (is_valid PostForm s form = false ->
      create_post PostForm request s
      = (s, render "blog/create.html" [("form", VPostForm form)])
      /\ (is_bound form = true -> errors PostForm s form <> [])
      /\ (is_bound form = false -> errors PostForm s form = [])).
Proof.
  intros Hu form. unfold create_post, login_required. rewrite Hu.
  fold (create_post_form request). fold form. split; intros Hv; rewrite Hv.
  - eexists. split; [reflexivity|]. split; [reflexivity|].
    simpl. apply fresh_id_not_in.
  - split; [reflexivity|]. unfold is_valid in Hv. split; intros Hb.
    + rewrite Hb in Hv. simpl in Hv. intros E. now rewrite E in Hv.
    + unfold errors. now rewrite Hb.
Qed.

Lemma create_post_outcome_witness :
  let request := demo_request POST (Some alice) [("text", "hi")] in
  request_user request = Some alice
  /\ (exists post,
        create_post demo_PostForm request demo_store
        = (set_posts demo_store (posts demo_store ++ [post]),
           redirect (blog_profile "alice"))
        /\ post_author post = 1
        /\ ~ In (post_id post) (map post_id (posts demo_store))).
Proof.
  cbv zeta. split; [reflexivity|].
  apply (proj1 (create_post_outcome demo_PostForm
                  (demo_request POST (Some alice) [("text", "hi")])
                  demo_store alice eq_refl)).
  reflexivity.
Defined.

(** ** Commenting *)

Lemma add_comment_valid CommentForm request s user post :
  request_user request = Some user ->
  get (posts s) (fun p => post_id p =? post_id post) = Found post ->
  is_valid CommentForm s (add_comment_form request) = true ->
  exists comment,
    add_comment CommentForm request (post_id post) s
    = (set_comments s (comments s ++ [comment]),
       redirect (blog_post_detail (post_id post)))
    /\ comment_post comment = post_id post
    /\ comment_author comment = user_id user
    /\ ~ In (comment_id comment) (map comment_id (comments s)).
Proof.
  intros Hu Hget Hv. unfold add_comment, login_required, get_object_or_404.
  rewrite Hu, Hget. fold (add_comment_form request). rewrite Hv.
  eexists. split; [reflexivity|]. repeat split. simpl. apply fresh_id_not_in.
Qed.

(** C4: for an existing post and an authenticated user, [add_comment] with
    invalid data creates no comment and still redirects to the post's
    detail page; with valid data it appends one comment, on that post and
    by that user, with the same redirect; for a post id that does not
    exist it answers not-found. *)
Theorem add_comment_outcome CommentForm request pid s user :
  request_user request = Some user ->
  let form := add_comment_form request in
  (forall post,
     get (posts s) (fun p => post_id p =? pid) = Found post ->
     post_id post = pid
     /\ (is_valid CommentForm s form = false ->
         add_comment CommentForm request pid s
         = (s, redirect (blog_post_detail pid)))
     /\ (is_valid CommentForm s form = true ->
         exists comment,
           add_comment CommentForm request pid s
           = (set_comments s (comments s ++ [comment]),
              redirect (blog_post_detail pid))
           /\ comment_post comment = post_id post
           /\ comment_author comment = user_id user
           /\ ~ In (comment_id comment) (map comment_id (comments s))))
  /\ ((forall p, In p (posts s) -> post_id p <> pid) ->
      add_comment CommentForm request pid s = (s, Http404)).
Proof.
  intros Hu form. split.
  - intros post Hget.
    assert (Hid : post_id post = pid).
    { apply get_Found in Hget as [_ H]. now apply Z.eqb_eq. }
    split; [exact Hid|]. split; intros Hv.
    + unfold add_comment, login_required, get_object_or_404.
      rewrite Hu, Hget. fold (add_comment_form request). fold form.
      now rewrite Hv.
    + subst pid. now apply add_comment_valid.
  - intros Hnone. unfold add_comment, login_required, get_object_or_404.
    rewrite Hu, get_NotFound; [reflexivity|].
    intros p Hp. apply Z.eqb_neq. now apply Hnone.
Qed.

Lemma add_comment_outcome_witness :
  let request := demo_request POST (Some bob) [("text", "nice")] in
  request_user request = Some bob
  /\ (exists comment,
        add_comment demo_CommentForm request 1 demo_store
        = (set_comments demo_store (comments demo_store ++ [comment]),
           redirect (blog_post_detail 1))
        /\ comment_post comment = post_id post1
        /\ comment_author comment = user_id bob
        /\ ~ In (comment_id comment) (map comment_id (comments demo_store)))
  /\ add_comment demo_CommentForm request 9 demo_store = (demo_store, Http404).
Proof.
  cbv zeta. split; [reflexivity|].
  pose proof (add_comment_outcome demo_CommentForm
                (demo_request POST (Some bob) [("text", "nice")])
                1 demo_store bob eq_refl) as [H1 _].
  pose proof (add_comment_outcome demo_CommentForm
                (demo_request POST (Some bob) [("text", "nice")])
                9 demo_store bob eq_refl) as [_ H9].
  split.
  - destruct (H1 post1 eq_refl) as [_ [_ Hvalid]]. apply Hvalid. reflexivity.
  - apply H9. simpl. intros p [<-|[<-|[<-|[<-|[]]]]]; simpl; lia.
Defined.

(** C9: the post lookup of [add_comment] applies no visibility filter: on a
    hidden post, a valid comment of an authenticated user who is not the
    author is saved on that post, although [post_detail] answers not-found
    to the same user for the same post. *)
Theorem add_comment_on_hidden_post CommentForm now request s user P :
  request_user request = Some user ->
  get (posts s) (fun p => post_id p =? post_id P) = Found P ->
  hidden now s P ->
  user_id user <> post_author P ->
  is_valid CommentForm s (add_comment_form request) = true ->
  (exists comment,
     add_comment CommentForm request (post_id P) s
     = (set_comments s (comments s ++ [comment]),
        redirect (blog_post_detail (post_id P)))
     /\ comment_post comment = post_id P
     /\ comment_author comment = user_id user
     /\ ~ In (comment_id comment) (map comment_id (comments s)))
  /\ post_detail now request (post_id P) s = (s, Http404).
Proof.
  intros Hu Hget Hh Hne Hv. split.
  - now apply add_comment_valid.
  - apply post_detail_non_author_hidden; try assumption.
    rewrite Hu. simpl. now apply is_user_false.
Qed.

Lemma add_comment_on_hidden_post_witness :
  let request := demo_request POST (Some bob) [("text", "seen")] in
  (request_user request = Some bob
   /\ get (posts demo_store) (fun p => post_id p =? post_id post2) = Found post2
   /\ hidden 20 demo_store post2
   /\ user_id bob <> post_author post2
   /\ is_valid demo_CommentForm demo_store (add_comment_form request) = true)
  /\ (exists comment,
        add_comment demo_CommentForm request 2 demo_store
        = (set_comments demo_store (comments demo_store ++ [comment]),
           redirect (blog_post_detail 2))
        /\ comment_post comment = 2
        /\ comment_author comment = 2
        /\ ~ In (comment_id comment) (map comment_id (comments demo_store)))
  /\ post_detail 20 request 2 demo_store = (demo_store, Http404).
Proof.
  cbv zeta.
  assert (Hh : hidden 20 demo_store post2) by (left; reflexivity).
  assert (Hne : user_id bob <> post_author post2) by (simpl; lia).
  split.
  - split; [reflexivity|]. split; [reflexivity|]. split; [exact Hh|].
    split; [exact Hne | reflexivity].
  - exact (add_comment_on_hidden_post demo_CommentForm 20
             (demo_request POST (Some bob) [("text", "seen")])
             demo_store bob post2 eq_refl eq_refl Hh Hne eq_refl).
Defined.

(** ** What the post views tell about a post id *)

Lemma edit_post_missing PostForm request s user pid :
  request_user request = Some user ->
  (forall p, In p (posts s) -> post_id p <> pid) ->
  edit_post PostForm request pid s = (s, Http404).
Proof.
  intros Hu H. unfold edit_post, login_required, get_object_or_404.
  rewrite Hu, get_NotFound; [reflexivity|].
  intros p Hp. apply Z.eqb_neq. now apply H.
Qed.

Lemma delete_post_missing request s user pid :
  request_user request = Some user ->
  (forall p, In p (posts s) -> post_id p <> pid) ->
  delete_post request pid s = (s, Http404).
Proof.
  intros Hu H. unfold delete_post, login_required, get_object_or_404.
  rewrite Hu, get_NotFound; [reflexivity|].
  intros p Hp. apply Z.eqb_neq. now apply H.
Qed.

Lemma edit_post_non_author PostForm request s user pid post :
  request_user request = Some user ->
  get (posts s) (fun p => post_id p =? pid) = Found post ->
  user_id user <> post_author post ->
  edit_post PostForm request pid s = (s, redirect (blog_post_detail pid)).
Proof.
  intros Hu Hget Hne. unfold edit_post, login_required, get_object_or_404.
  now rewrite Hu, Hget, (is_user_false _ _ Hne).
Qed.

Lemma delete_post_non_author request s user pid post :
  request_user request = Some user ->
  get (posts s) (fun p => post_id p =? pid) = Found post ->
  user_id user <> post_author post ->
  delete_post request pid s = (s, redirect (blog_post_detail pid)).
Proof.
  intros Hu Hget Hne. unfold delete_post, login_required, get_object_or_404.
  now rewrite Hu, Hget, (is_user_false _ _ Hne).
Qed.

(** C10: to an authenticated user who may not see a hidden post of someone
    else, [post_detail] answers not-found both for that post and for an id
    that names no post, but [edit_post] and [delete_post] answer not-found
    only for the id that names no post and redirect to the detail page for
    the hidden post: the two answers differ. *)
Theorem edit_and_delete_reveal_hidden_posts
    PostForm now request s user P missing :
  request_user request = Some user ->
  get (posts s) (fun p => post_id p =? post_id P) = Found P ->
  hidden now s P ->
  user_id user <> post_author P ->
  (forall p, In p (posts s) -> post_id p <> missing) ->
  (post_detail now request (post_id P) s = (s, Http404)
   /\ post_detail now request missing s = (s, Http404))
  /\ (edit_post PostForm request missing s = (s, Http404)
      /\ edit_post PostForm request (post_id P) s
         = (s, redirect (blog_post_detail (post_id P))))
  /\ (delete_post request missing s = (s, Http404)
      /\ delete_post request (post_id P) s
         = (s, redirect (blog_post_detail (post_id P))))
  /\ snd (edit_post PostForm request missing s)
     <> snd (edit_post PostForm request (post_id P) s)
  /\ snd (delete_post request missing s)
     <> snd (delete_post request (post_id P) s).
Proof.
  intros Hu Hget Hh Hne Hmiss.
  pose proof (edit_post_non_author PostForm request s user _ P Hu Hget Hne)
    as He.
  pose proof (delete_post_non_author request s user _ P Hu Hget Hne) as Hd.
  pose proof (edit_post_missing PostForm request s user missing Hu Hmiss) as He'.
  pose proof (delete_post_missing request s user missing Hu Hmiss) as Hd'.
  split.
  { split; [|now apply post_detail_missing].
    apply post_detail_non_author_hidden; try assumption.
    rewrite Hu. simpl. now apply is_user_false. }
  split; [now split|]. split; [now split|].
  rewrite He, Hd, He', Hd'. simpl. split; discriminate.
Qed.

Lemma edit_and_delete_reveal_hidden_posts_witness :
  let request := demo_request GET (Some bob) [] in
  (request_user request = Some bob
   /\ get (posts demo_store) (fun p => post_id p =? post_id post3) = Found post3
   /\ hidden 20 demo_store post3
   /\ user_id bob <> post_author post3
   /\ (forall p, In p (posts demo_store) -> post_id p <> 7))
  /\ snd (edit_post demo_PostForm request 7 demo_store)
     <> snd (edit_post demo_PostForm request 3 demo_store)
  /\ snd (delete_post request 7 demo_store)
     <> snd (delete_post request 3 demo_store).
Proof.
  cbv zeta.
  assert (Hh : hidden 20 demo_store post3).
  { right; left. exists drafts. split; reflexivity. }
  assert (Hne : user_id bob <> post_author post3) by (simpl; lia).
  assert (Hmiss : forall p, In p (posts demo_store) -> post_id p <> 7).
  { simpl. intros p [<-|[<-|[<-|[<-|[]]]]]; simpl; lia. }
  split.
  - split; [reflexivity|]. split; [reflexivity|]. split; [exact Hh|].
    split; [exact Hne | exact Hmiss].
  - apply (edit_and_delete_reveal_hidden_posts demo_PostForm 20
             (demo_request GET (Some bob) []) demo_store bob post3 7
             eq_refl eq_refl Hh Hne Hmiss).
Defined.

(** ** The post id in the URL of the comment views *)

(** C5: [edit_comment] and [delete_comment] find their comment by the
    comment id alone; the post id of the URL is never compared with the
    comment's post.  Under two post ids the views leave the same store and
    give the same response, up to the post named in the redirect; so the
    author's confirmed deletion removes the comment under any post id. *)
Theorem comment_views_ignore_post_id CommentForm request p p' cid s :
  (fst (edit_comment CommentForm request p cid s)
   = fst (edit_comment CommentForm request p' cid s)
   /\ snd (edit_comment CommentForm request p cid s)
      = retarget p (snd (edit_comment CommentForm request p' cid s)))
  /\ (fst (delete_comment request p cid s)
      = fst (delete_comment request p' cid s)
      /\ snd (delete_comment request p cid s)
         = retarget p (snd (delete_comment request p' cid s)))
  /\ (forall user comment,
        request_user request = Some user ->
        get (comments s) (fun c => comment_id c =? cid) = Found comment ->
        user_id user = comment_author comment ->
        request_method request = POST ->
        delete_comment request p cid s
        = (delete_comment_row s comment, redirect (blog_post_detail p))).
Proof.
  unfold edit_comment, delete_comment, login_required, get_object_or_404.
  destruct (request_user request) as [user|]; [|repeat split; easy].
  destruct (get (comments s) (fun c => comment_id c =? cid)) as [comment| |];
    [|repeat split; easy..].
  split; [|split].
  - destruct (negb (user_id user =? comment_author comment));
      [split; reflexivity|].
    destruct (is_valid CommentForm s _); split; reflexivity.
  - destruct (negb (user_id user =? comment_author comment));
      [split; reflexivity|].
    destruct (method_is_POST (request_method request)); split; reflexivity.
  - intros u c [= <-] [= <-] Hau Hm.
    apply Z.eqb_eq in Hau. rewrite Hau, Hm. reflexivity.
Qed.

(** The author deletes comment 1, which is on post 1, under post 3. *)
Example delete_comment_under_another_post :
  delete_comment (demo_request POST (Some alice) []) 3 1 demo_store
  = (set_comments demo_store [], redirect (blog_post_detail 3)).
Proof. reflexivity. Qed.

(** ** Category listings *)

(** C6: with slugs unique, [category_posts] answers not-found when no
    category has the slug or when the category with the slug is
    unpublished, and otherwise renders the listing of that category. *)
Theorem category_posts_not_found POSTS_ON_PAGE now request slug s :
  NoDup (map category_slug (categories s)) ->
  ((forall c, In c (categories s) -> category_slug c <> slug) ->
   category_posts POSTS_ON_PAGE now request slug s = (s, Http404))
  /\ (forall c,
        In c (categories s) -> category_slug c = slug ->
        (category_is_published c = false ->
         category_posts POSTS_ON_PAGE now request slug s = (s, Http404))
        /\ (category_is_published c = true ->
            category_posts POSTS_ON_PAGE now request slug s
            = (s, category_page POSTS_ON_PAGE now request s c))).
Proof.
  intros Hnd. unfold category_posts, get_object_or_404. split.
  - intros Hnone. rewrite get_NotFound; [reflexivity|].
    intros c Hc. apply andb_false_intro1. apply String.eqb_neq. now apply Hnone.
  - intros c Hc Hslug. unfold get. rewrite filter_andb. subst slug.
    rewrite (filter_unique_key String.eqb category_slug _ c String.eqb_eq Hnd Hc).
    simpl. split; intros Hp; rewrite Hp; reflexivity.
Qed.

Lemma category_posts_not_found_witness :
  NoDup (map category_slug (categories demo_store))
  /\ category_posts 10 20 (demo_request GET None []) "cooking" demo_store
     = (demo_store, Http404)
  /\ category_posts 10 20 (demo_request GET None []) "drafts" demo_store
     = (demo_store, Http404)
  /\ category_posts 10 20 (demo_request GET None []) "travel" demo_store
     = (demo_store,
        category_page 10 20 (demo_request GET None []) demo_store travel).
Proof.
  assert (Hnd : NoDup (map category_slug (categories demo_store))).
  { simpl. repeat constructor; simpl; intuition discriminate. }
  split; [exact Hnd|].
  pose proof (category_posts_not_found 10 20 (demo_request GET None []))
    as H.
  split; [|split].
  - apply (proj1 (H "cooking" demo_store Hnd)).
    simpl. intros c [<-|[<-|[]]]; discriminate.
  - apply (proj2 (H "drafts" demo_store Hnd) drafts); simpl; auto.
  - apply (proj2 (H "travel" demo_store Hnd) travel); simpl; auto.
Defined.

(** ** Editing the profile *)

(** C7: on a GET request [edit_profile] binds the empty submission to the
    profile form, which fails validation, so the profile is not saved and
    the form page is rendered, not a redirect. *)
Theorem edit_profile_GET ProfileForm request s user :
  request_user request = Some user ->
  request_method request = GET ->
  well_formed request ->
  rejects_empty_submission ProfileForm s user ->
  let form := mkForm (Some []) None (Some user) in
  is_bound form = true
  /\ is_valid ProfileForm s form = false
  /\ edit_profile ProfileForm request s
     = (s, render "blog/user.html" [("form", VProfileForm form)]).
Proof.
  intros Hu Hm Hwf Hrej form. destruct (Hwf Hm) as [Hpost _].
  assert (Hv : is_valid ProfileForm s form = false).
  { unfold is_valid, errors. simpl.
    destruct (form_errors ProfileForm s [] [] (Some user)) eqn:E;
      [now elim Hrej | reflexivity]. }
  split; [reflexivity|]. split; [exact Hv|].
  unfold edit_profile, login_required. rewrite Hu, Hpost. cbv zeta.
  match goal with
  | |- (if ?valid then _ else _) = _ =>
      replace valid with false by (symmetry; exact Hv)
  end.
  reflexivity.
Qed.

Lemma edit_profile_GET_witness :
  let request := demo_request GET (Some alice) [] in
  let form := mkForm (Some []) None (Some alice) in
  (request_user request = Some alice
   /\ request_method request = GET
   /\ well_formed request
   /\ rejects_empty_submission demo_ProfileForm demo_store alice)
  /\ is_bound form = true
  /\ is_valid demo_ProfileForm demo_store form = false
  /\ edit_profile demo_ProfileForm request demo_store
     = (demo_store, render "blog/user.html" [("form", VProfileForm form)]).
Proof.
  cbv zeta.
  assert (Hwf : well_formed (demo_request GET (Some alice) [])).
  { intros _. split; reflexivity. }
  assert (Hrej : rejects_empty_submission demo_ProfileForm demo_store alice).
  { unfold rejects_empty_submission. simpl. discriminate. }
  split.
  - split; [reflexivity|]. split; [reflexivity|]. split; assumption.
  - exact (edit_profile_GET demo_ProfileForm (demo_request GET (Some alice) [])
             demo_store alice eq_refl eq_refl Hwf Hrej).
Defined.

(** ** The index page *)

Lemma firstn_incl {A} (n : nat) (l : list A) : incl (firstn n l) l.
Proof.
  intros x Hx. rewrite <- (firstn_skipn n l). apply in_or_app. now left.
Qed.

Lemma skipn_incl {A} (n : nat) (l : list A) : incl (skipn n l) l.
Proof.
  intros x Hx. rewrite <- (firstn_skipn n l). apply in_or_app. now right.
Qed.

(** A page is a run of at most [per_page] rows of the listing. *)
Lemma get_page_object_list per_page page l :
  let p := get_page per_page page l in
  object_list p
  = firstn (Pos.to_nat per_page)
      (skipn (Z.to_nat ((number p - 1) * Z.pos per_page)) l)
  /\ (List.length (object_list p) <= Pos.to_nat per_page)%nat
  /\ incl (object_list p) l.
Proof.
  cbv zeta. split; [reflexivity|]. split.
  - apply firstn_le_length.
  - unfold get_page. simpl. intros x Hx.
    apply firstn_incl in Hx. now apply skipn_incl in Hx.
Qed.

(** The clock decides nothing between two readings when no post is dated
    in between. *)
Lemma query_post_same_visible now now' s :
  now <= now' ->
  (forall p, In p (posts s) -> ~ (now < post_pub_date p <= now')) ->
  query_post now' s (posts s) true = query_post now s (posts s) true.
Proof.
  intros Hle Hnone. unfold query_post. apply filter_ext_in. intros p Hp.
  unfold visible. f_equal. specialize (Hnone p Hp).
  destruct (post_pub_date p <=? now) eqn:E1, (post_pub_date p <=? now') eqn:E2;
    try reflexivity.
  - apply Z.leb_le in E1. apply Z.leb_gt in E2. lia.
  - apply Z.leb_gt in E1. apply Z.leb_le in E2. lia.
Qed.

(** C8, as stated, fails: the listing is not a function of the store and
    the request alone.  The same request on the same store lists post 4,
    dated 50, at time 60 but not at time 20. *)
Lemma index_depends_on_the_clock :
  let request := demo_request GET None [] in
  let first := index 10 20 request demo_store in
  let second := index 10 60 request (fst first) in
  fst first = demo_store
  /\ snd first
     = render "blog/index.html" [("page_obj", VPage (mkPage [post1] 1 1))]
  /\ snd second
     = render "blog/index.html"
         [("page_obj", VPage (mkPage [post1; post4] 1 1))]
  /\ snd second <> snd first.
Proof.
  cbv zeta. split; [reflexivity|]. split; [reflexivity|].
  split; [reflexivity|]. vm_compute. discriminate.
Qed.

(** C8 (amended): [index] writes nothing, so a second request with the
    same parameters meets the same store; it returns the same page, in the
    same order, as long as no post is dated between the two readings of the
    clock (in particular at one and the same reading).  The page is a run
    of at most one page's capacity of the visible posts, in their order;
    when there are more visible posts than that, it is only a part of
    them. *)
Theorem index_repeatable POSTS_ON_PAGE now now' request s :
  now <= now' ->
  (forall p, In p (posts s) -> ~ (now < post_pub_date p <= now')) ->
  let first := index POSTS_ON_PAGE now request s in
  let second := index POSTS_ON_PAGE now' request (fst first) in
  let listing := query_post now s (posts s) true in
  fst first = s /\ fst second = s /\ snd second = snd first
  /\ exists page,
       snd first = render "blog/index.html" [("page_obj", VPage page)]
       /\ object_list page
          = firstn (Pos.to_nat POSTS_ON_PAGE)
              (skipn (Z.to_nat ((number page - 1) * Z.pos POSTS_ON_PAGE))
                 listing)
       /\ (List.length (object_list page) <= Pos.to_nat POSTS_ON_PAGE)%nat
       /\ incl (object_list page) listing
       /\ ((Pos.to_nat POSTS_ON_PAGE < List.length listing)%nat ->
           (List.length (object_list page) < List.length listing)%nat).
Proof.
  intros Hle Hnone first second listing.
  split; [reflexivity|]. split; [reflexivity|]. split.
  - unfold second, first, index. cbn [fst snd].
    now rewrite (query_post_same_visible now now' s Hle Hnone).
  - exists (posts_pagination POSTS_ON_PAGE request listing).
    split; [reflexivity|].
    destruct (get_page_object_list POSTS_ON_PAGE (request_page request) listing)
      as [Hrun [Hlen Hincl]].
    split; [exact Hrun|]. split; [exact Hlen|]. split; [exact Hincl|].
    unfold posts_pagination. lia.
Qed.

Lemma index_repeatable_witness :
  let request := mkRequest GET None (Some 2) [] [] in
  (20 <= 40
   /\ (forall p, In p (posts busy_store) -> ~ (20 < post_pub_date p <= 40)))
  /\ snd (index 2 40 request (fst (index 2 20 request busy_store)))
     = snd (index 2 20 request busy_store)
  /\ snd (index 2 20 request busy_store)
     = render "blog/index.html" [("page_obj", VPage (mkPage [post6] 2 2))].
Proof.
  cbv zeta.
  assert (Hnone : forall p, In p (posts busy_store) ->
                            ~ (20 < post_pub_date p <= 40)).
  { simpl. intros p [<-|[<-|[<-|[<-|[<-|[<-|[]]]]]]]; simpl; lia. }
  split; [split; [lia | exact Hnone]|].
  split; [|reflexivity].
  apply (index_repeatable 2 20 40 (mkRequest GET None (Some 2) [] [])
           busy_store ltac:(lia) Hnone).
Defined.

(** ** Anonymous visitors and safe requests *)

Section AllViews.

Variable PostForm : FormClass Post.
Variable CommentForm : FormClass Comment.
Variable ProfileForm : FormClass User.
Variable POSTS_ON_PAGE : positive.
Variable now : Z.

Local Abbreviation run :=
  (handle PostForm CommentForm ProfileForm POSTS_ON_PAGE now).

Ltac unfold_views :=
  unfold handle, dispatch, index, category_posts, post_detail, profile,
    create_post, edit_post, delete_post, edit_profile, add_comment,
    edit_comment, delete_comment, login_required, get_object_or_404.

(** Every view behind [@login_required] sends an anonymous visitor to the
    login page and leaves the store alone, before any lookup: the answer
    is the same for an id that exists and one that does not. *)
Theorem anonymous_is_sent_to_login v request s :
  requires_login v = true ->
  request_user request = None ->
  run v request s = (s, redirect login).
Proof.
  intros Hv Hu.
  destruct v as [| | | | | | |[| | |]]; try discriminate Hv;
    unfold_views; now rewrite Hu.
Qed.

Lemma unbound_is_invalid {A} (F : FormClass A) s (instance : option A) :
  is_valid F s (mkForm None None instance) = false.
Proof. reflexivity. Qed.

(** A GET request writes nothing, whatever the forms accept, through every
    view but [edit_profile]: the forms of the other views are unbound when
    no data is submitted, and the deleting views ask for a POST. *)
Theorem GET_is_safe v request s :
  request_method request = GET ->
  well_formed request ->
  writes_users v = false ->
  fst (run v request s) = s.
Proof.
  intros Hm Hwf Hv. destruct (Hwf Hm) as [Hpost Hfiles].
  destruct v as [| | | | | | |[| | |]]; try discriminate Hv;
    unfold_views; rewrite ?Hpost, ?Hfiles, ?Hm; simpl;
    repeat match goal with
      | |- context [match request_user request with _ => _ end] =>
          destruct (request_user request)
      | |- context [match get ?rows ?cond with _ => _ end] =>
          destruct (get rows cond)
      | |- context [if negb ?b then _ else _] => destruct b; simpl
      end;
    reflexivity.
Qed.

(** The tables a view does not write keep their rows; no view writes the
    category table. *)
Theorem views_write_their_tables_only v request s :
  categories (fst (run v request s)) = categories s
  /\ (writes_users v = false -> users (fst (run v request s)) = users s)
  /\ (writes_posts v = false -> posts (fst (run v request s)) = posts s)
  /\ (writes_comments v = false ->
      comments (fst (run v request s)) = comments s).
Proof.
  destruct v as [| | | | | | |[| | |]]; unfold_views;
    repeat match goal with
      | |- context [match request_user request with _ => _ end] =>
          destruct (request_user request)
      | |- context [match get ?rows ?cond with _ => _ end] =>
          destruct (get rows cond)
      | |- context [if negb ?b then _ else _] => destruct b; simpl
      | |- context [if is_valid ?F ?s ?f then _ else _] =>
          destruct (is_valid F s f)
      | |- context [if method_is_POST ?m then _ else _] =>
          destruct (method_is_POST m)
      end;
    cbn [fst]; unfold update_post, update_comment, update_user, insert_post,
      insert_comment, delete_post_row, delete_comment_row;
    repeat match goal with
      | |- context [if existsb ?f ?l then _ else _] => destruct (existsb f l)
      end;
    simpl; repeat split; intros; (reflexivity || discriminate).
Qed.

(** ** Unique primary keys *)

Lemma NoDup_snoc {A} (l : list A) (x : A) :
  NoDup l -> ~ In x l -> NoDup (l ++ [x]).
Proof.
  induction l as [|y l IH]; simpl; intros Hnd Hx.
  - constructor; [easy | constructor].
  - inversion Hnd as [|? ? Hy Hl]; subst. constructor.
    + intros Hin. apply in_app_or in Hin as [Hin|[->|[]]]; auto.
    + apply IH; auto.
Qed.

Lemma NoDup_map_filter {A} (key : A -> Z) (keep : A -> bool) (l : list A) :
  NoDup (map key l) -> NoDup (map key (filter keep l)).
Proof.
  induction l as [|a l IH]; simpl; intros Hnd; [constructor|].
  inversion Hnd as [|? ? Ha Hl]; subst.
  destruct (keep a); simpl; [|now apply IH].
  constructor; [|now apply IH].
  intros Hin. apply Ha. apply in_map_iff in Hin as [b [Hb Hin]].
  apply filter_In in Hin as [Hin _]. rewrite <- Hb. now apply in_map.
Qed.

(** Replacing the rows of a key by a row of that key keeps the keys. *)
Lemma map_key_replace {A} (key : A -> Z) (p : A) (l : list A) :
  map key (map (fun q => if key q =? key p then p else q) l) = map key l.
Proof.
  induction l as [|a l IH]; simpl; [reflexivity|]. rewrite IH. f_equal.
  destruct (key a =? key p) eqn:E; [|reflexivity].
  apply Z.eqb_eq in E. now rewrite E.
Qed.

Lemma existsb_key_false {A} (key : A -> Z) (p : A) (l : list A) :
  existsb (fun q => key q =? key p) l = false -> ~ In (key p) (map key l).
Proof.
  intros E Hin. apply in_map_iff in Hin as [q [Hq Hin]].
  assert (H : existsb (fun q => key q =? key p) l = true).
  { apply existsb_exists. exists q. split; [exact Hin|]. now apply Z.eqb_eq. }
  congruence.
Qed.

(** Whatever the forms build, a view leaves primary keys unique: a new row
    gets a key above those in use, a saved row takes the place of the rows
    of its key, and a deletion only removes rows. *)
Theorem views_keep_keys_unique v request s :
  unique_keys s -> unique_keys (fst (run v request s)).
Proof.
  intros (Hu & Hc & Hp & Hm).
  destruct v as [| | | | | | |[| | |]]; unfold_views;
    repeat match goal with
      | |- context [match request_user request with _ => _ end] =>
          destruct (request_user request)
      | |- context [match get ?rows ?cond with _ => _ end] =>
          destruct (get rows cond)
      | |- context [if negb ?b then _ else _] => destruct b; simpl
      | |- context [if is_valid ?F ?s ?f then _ else _] =>
          destruct (is_valid F s f)
      | |- context [if method_is_POST ?m then _ else _] =>
          destruct (method_is_POST m)
      end;
    cbn [fst]; try (repeat split; assumption);
    unfold update_post, update_comment, update_user, insert_post,
      insert_comment, delete_post_row, delete_comment_row;
    repeat match goal with
      | |- context [if existsb ?f ?l then _ else _] =>
          let E := fresh "E" in destruct (existsb f l) eqn:E
      end;
    unfold unique_keys; simpl; repeat split; try assumption;
    rewrite ?map_key_replace; try assumption;
    try (apply NoDup_map_filter; assumption);
    rewrite map_app; simpl; apply NoDup_snoc; try assumption;
    try apply fresh_id_not_in;
    match goal with
    | E : existsb _ _ = false |- _ => exact (existsb_key_false _ _ _ E)
    end.
Qed.

End AllViews.

Lemma demo_store_unique_keys : unique_keys demo_store.
Proof.
  unfold unique_keys. simpl.
  repeat split; repeat constructor; simpl; intuition lia.
Qed.

Lemma anonymous_is_sent_to_login_witness :
  let request := demo_request POST None [("text", "spam")] in
  (requires_login (AddComment 1) = true /\ request_user request = None)
  /\ handle demo_PostForm demo_CommentForm demo_ProfileForm 10 20
       (AddComment 1) request demo_store
     = (demo_store, redirect login).
Proof.
  cbv zeta. split; [split; reflexivity|].
  exact (anonymous_is_sent_to_login demo_PostForm demo_CommentForm
           demo_ProfileForm 10 20 (AddComment 1)
           (demo_request POST None [("text", "spam")]) demo_store
           eq_refl eq_refl).
Defined.

Lemma GET_is_safe_witness :
  let request := demo_request GET (Some alice) [] in
  (request_method request = GET /\ well_formed request
   /\ writes_users (Mutating (DeletePost 1)) = false)
  /\ fst (handle demo_PostForm demo_CommentForm demo_ProfileForm 10 20
            (Mutating (DeletePost 1)) request demo_store)
     = demo_store.
Proof.
  cbv zeta.
  assert (Hwf : well_formed (demo_request GET (Some alice) [])).
  { intros _. split; reflexivity. }
  split; [split; [reflexivity | split; [exact Hwf | reflexivity]]|].
  exact (GET_is_safe demo_PostForm demo_CommentForm demo_ProfileForm 10 20
           (Mutating (DeletePost 1)) (demo_request GET (Some alice) [])
           demo_store eq_refl Hwf eq_refl).
Defined.

Lemma views_keep_keys_unique_witness :
  let request := demo_request POST (Some alice) [("text", "new")] in
  unique_keys demo_store
  /\ unique_keys
       (fst (handle demo_PostForm demo_CommentForm demo_ProfileForm 10 20
               CreatePost request demo_store)).
Proof.
  cbv zeta. split; [exact demo_store_unique_keys|].
  exact (views_keep_keys_unique demo_PostForm demo_CommentForm
           demo_ProfileForm 10 20 CreatePost
           (demo_request POST (Some alice) [("text", "new")]) demo_store
           demo_store_unique_keys).
Defined.

(** ** The profile form on a GET request *)

(** [edit_profile] validates on every request: when the profile form
    accepts an empty submission, a GET request saves the profile as the
    form builds it from no data, and redirects to the profile page of the
    saved user. *)
Theorem edit_profile_GET_saves ProfileForm request s user :
  request_user request = Some user ->
  request_method request = GET ->
  well_formed request ->
  form_errors ProfileForm s [] [] (Some user) = [] ->
  let saved := construct_instance ProfileForm [] [] (Some user) in
  edit_profile ProfileForm request s
  = (update_user s saved, redirect (blog_profile (username saved)))
  /\ posts (update_user s saved) = posts s
  /\ comments (update_user s saved) = comments s
  /\ In saved (users (update_user s saved)).
Proof.
  intros Hu Hm Hwf Hok saved. destruct (Hwf Hm) as [Hpost _].
  split; [|split; [|split]].
  - unfold edit_profile, login_required. rewrite Hu, Hpost. cbv zeta.
    unfold is_valid, errors. simpl. rewrite Hok. reflexivity.
  - unfold update_user. now destruct (existsb _ _).
  - unfold update_user. now destruct (existsb _ _).
  - unfold update_user.
    destruct (existsb (fun v => user_id v =? user_id saved) (users s)) eqn:E;
      simpl.
    + apply existsb_exists in E as [v [Hv Hid]]. apply in_map_iff.
      exists v. now rewrite Hid.
    + apply in_or_app. right. now left.
Qed.

Lemma edit_profile_GET_saves_witness :
  let request := demo_request GET (Some alice) [] in
  (request_user request = Some alice
   /\ request_method request = GET
   /\ well_formed request
   /\ form_errors demo_open_ProfileForm demo_store [] [] (Some alice) = [])
  /\ edit_profile demo_open_ProfileForm request demo_store
     = (demo_store, redirect (blog_profile "alice")).
Proof.
  cbv zeta.
  assert (Hwf : well_formed (demo_request GET (Some alice) [])).
  { intros _. split; reflexivity. }
  split; [split; [reflexivity | split; [reflexivity | split;
          [exact Hwf | reflexivity]]]|].
  exact (proj1 (edit_profile_GET_saves demo_open_ProfileForm
                  (demo_request GET (Some alice) []) demo_store alice
                  eq_refl eq_refl Hwf eq_refl)).
Defined.

(** ** What an author's edit and deletion do to the table *)

Section Rows.

Context {A : Type}.
Variable key : A -> Z.

(** After the rows of a key are replaced by [p], the key finds [p] as
    often as it found a row before. *)
Lemma filter_key_replace (p : A) (l : list A) :
  filter (fun q => key q =? key p)
    (map (fun q => if key q =? key p then p else q) l)
  = map (fun _ => p) (filter (fun q => key q =? key p) l).
Proof.
  induction l as [|a l IH]; simpl; [reflexivity|].
  destruct (key a =? key p) eqn:E; simpl.
  - rewrite Z.eqb_refl. simpl. now rewrite IH.
  - rewrite E. exact IH.
Qed.

Lemma get_after_replace (p a : A) (l : list A) :
  get l (fun q => key q =? key p) = Found a ->
  get (map (fun q => if key q =? key p then p else q) l)
    (fun q => key q =? key p)
  = Found p.
Proof.
  intros H. unfold get. rewrite filter_key_replace.
  now rewrite (get_Found_filter _ _ _ H).
Qed.

Lemma In_other_after_replace (p q : A) (l : list A) :
  In q l -> key q <> key p ->
  In q (map (fun q => if key q =? key p then p else q) l).
Proof.
  intros Hin Hne. apply in_map_iff. exists q. split; [|exact Hin].
  apply Z.eqb_neq in Hne. now rewrite Hne.
Qed.

Lemma existsb_of_get (k : Z) (a : A) (l : list A) :
  get l (fun q => key q =? k) = Found a ->
  existsb (fun q => key q =? k) l = true.
Proof.
  intros H. apply get_Found in H as [Hin Hk].
  apply existsb_exists. now exists a.
Qed.

(** After the rows of a key are removed, the key finds nothing. *)
Lemma get_after_delete (k : Z) (l : list A) :
  get (filter (fun q => negb (key q =? k)) l) (fun q => key q =? k)
  = NotFound.
Proof.
  apply get_NotFound. intros a Ha. apply filter_In in Ha as [_ Ha].
  now destruct (key a =? k).
Qed.

(** A new row under a key not in use is the row its key finds. *)
Lemma get_after_insert (p : A) (l : list A) :
  ~ In (key p) (map key l) ->
  get (l ++ [p]) (fun q => key q =? key p) = Found p.
Proof.
  intros Hfresh. unfold get. rewrite filter_app, filter_none; simpl.
  - now rewrite Z.eqb_refl.
  - intros a Ha. apply Z.eqb_neq. intros E. apply Hfresh.
    rewrite <- E. now apply in_map.
Qed.

End Rows.

(** An author's [edit_post]: an invalid or missing submission changes
    nothing and shows the form on the post; a valid one saves the post the
    form builds and redirects to the detail page.  When the form keeps the
    primary key, the saved post is the one its id now finds, the table has
    as many rows as before, and every other post is still there. *)
Theorem edit_post_by_author PostForm request s user pid post :
  request_user request = Some user ->
  get (posts s) (fun p => post_id p =? pid) = Found post ->
  user_id user = post_author post ->
  let form := edit_post_form request post in
  let saved := save_commit_False PostForm form in
  (is_valid PostForm s form = false ->
   edit_post PostForm request pid s
   = (s, render "blog/create.html" [("form", VPostForm form)]))
  /\ (is_valid PostForm s form = true ->
      edit_post PostForm request pid s
      = (update_post s saved, redirect (blog_post_detail pid))
      /\ (post_id saved = pid ->
          get (posts (update_post s saved)) (fun p => post_id p =? pid)
          = Found saved
          /\ List.length (posts (update_post s saved)) = List.length (posts s)
          /\ (forall q, In q (posts s) -> post_id q <> pid ->
                        In q (posts (update_post s saved))))).
Proof.
  intros Hu Hget Hau form saved.
  assert (Hview : edit_post PostForm request pid s
                  = if is_valid PostForm s form
                    then (update_post s saved, redirect (blog_post_detail pid))
                    else (s, render "blog/create.html"
                               [("form", VPostForm form)])).
  { unfold edit_post, login_required, get_object_or_404.
    rewrite Hu, Hget. apply Z.eqb_eq in Hau. now rewrite Hau. }
  split; intros Hv; rewrite Hview, Hv; [reflexivity|].
  split; [reflexivity|]. intros Hkey. subst pid.
  unfold update_post. rewrite (existsb_of_get post_id _ _ _ Hget). simpl.
  split; [now apply get_after_replace with post|]. split.
  - apply length_map.
  - intros q Hq Hne. now apply In_other_after_replace.
Qed.

Lemma edit_post_by_author_witness :
  let request := demo_request POST (Some alice) [("text", "edited")] in
  let saved := mkPost 2 1 1 false 10 10 "edited" in
  (request_user request = Some alice
   /\ get (posts demo_store) (fun p => post_id p =? 2) = Found post2
   /\ user_id alice = post_author post2)
  /\ edit_post demo_PostForm request 2 demo_store
     = (update_post demo_store saved, redirect (blog_post_detail 2))
  /\ get (posts (update_post demo_store saved)) (fun p => post_id p =? 2)
     = Found saved.
Proof.
  cbv zeta. split; [split; [reflexivity | split; reflexivity]|].
  destruct (edit_post_by_author demo_PostForm
              (demo_request POST (Some alice) [("text", "edited")])
              demo_store alice 2 post2 eq_refl eq_refl eq_refl)
    as [_ Hvalid].
  destruct (Hvalid eq_refl) as [Hview Hkey]. split; [exact Hview|].
  exact (proj1 (Hkey eq_refl)).
Defined.

(** An author's [delete_post]: a GET request changes nothing and shows the
    confirmation form; a POST request removes the post and redirects to the
    index.  Afterwards the other posts are all there, no post has the id,
    and [post_detail] answers not-found for it to everyone. *)
Theorem delete_post_by_author request s user pid post :
  request_user request = Some user ->
  get (posts s) (fun p => post_id p =? pid) = Found post ->
  user_id user = post_author post ->
  (request_method request = GET ->
   delete_post request pid s
   = (s, render "blog/create.html"
           [("form", VPostForm (mkForm None None (Some post)))]))
  /\ (request_method request = POST ->
      let s' := delete_post_row s post in
      delete_post request pid s = (s', redirect blog_index)
      /\ (forall p, In p (posts s') <-> In p (posts s) /\ post_id p <> pid)
      /\ (forall now viewer, post_detail now viewer pid s' = (s', Http404))).
Proof.
  intros Hu Hget Hau.
  assert (Hid : post_id post = pid).
  { apply get_Found in Hget as [_ H]. now apply Z.eqb_eq. }
  apply Z.eqb_eq in Hau.
  split; intros Hm.
  - unfold delete_post, login_required, get_object_or_404.
    now rewrite Hu, Hget, Hau, Hm.
  - cbv zeta. split; [|split].
    + unfold delete_post, login_required, get_object_or_404.
      now rewrite Hu, Hget, Hau, Hm.
    + intros p. simpl. rewrite filter_In, Hid, negb_true_iff, Z.eqb_neq.
      reflexivity.
    + intros now viewer. apply post_detail_missing. simpl. intros p Hp.
      apply filter_In in Hp as [_ Hp]. rewrite Hid in Hp.
      apply negb_true_iff in Hp. now apply Z.eqb_neq.
Qed.

Lemma delete_post_by_author_witness :
  let request := demo_request POST (Some alice) [] in
  (request_user request = Some alice
   /\ get (posts demo_store) (fun p => post_id p =? 1) = Found post1
   /\ user_id alice = post_author post1)
  /\ delete_post request 1 demo_store
     = (mkStore [alice; bob] [travel; drafts] [post2; post3; post4] [],
        redirect blog_index).
Proof.
  cbv zeta. split; [split; [reflexivity | split; reflexivity]|].
  exact (proj1 (proj2 (delete_post_by_author
                         (demo_request POST (Some alice) []) demo_store
                         alice 1 post1 eq_refl eq_refl eq_refl) eq_refl)).
Defined.

(** ** From a saved row to the page that shows it *)

(** Round trip of [create_post] and [post_detail]: the post saved by a
    valid submission is the last row of the table, and its author gets it
    back on the detail page of its id, whether or not it is visible. *)
Theorem created_post_is_shown_to_its_author PostForm now request again s user :
  request_user request = Some user ->
  request_user again = Some user ->
  is_valid PostForm s (create_post_form request) = true ->
  let s' := fst (create_post PostForm request s) in
  exists post,
    posts s' = (posts s ++ [post])%list
    /\ post_author post = user_id user
    /\ post_body post
       = post_body (save_commit_False PostForm (create_post_form request))
    /\ post_detail now again (post_id post) s' = (s', detail_page s' post).
Proof.
  intros Hu Hu' Hv s'.
  unfold s'. unfold create_post, login_required.
  rewrite Hu. fold (create_post_form request). rewrite Hv. cbn [fst].
  eexists. split; [reflexivity|]. split; [reflexivity|].
  split; [reflexivity|].
  unfold post_detail, get_object_or_404. cbn [posts insert_post set_posts].
  rewrite (get_after_insert post_id); [|apply fresh_id_not_in].
  rewrite Hu'. simpl. now rewrite Z.eqb_refl.
Qed.

Lemma created_post_is_shown_to_its_author_witness :
  let request := demo_request POST (Some bob) [("text", "hello")] in
  let again := demo_request GET (Some bob) [] in
  let s' := fst (create_post demo_PostForm request demo_store) in
  (request_user request = Some bob
   /\ request_user again = Some bob
   /\ is_valid demo_PostForm demo_store (create_post_form request) = true)
  /\ exists post,
       posts s' = (posts demo_store ++ [post])%list
       /\ post_author post = user_id bob
       /\ post_body post
          = post_body
              (save_commit_False demo_PostForm (create_post_form request))
       /\ post_detail 20 again (post_id post) s' = (s', detail_page s' post).
Proof.
  cbv zeta. split; [split; [reflexivity | split; reflexivity]|].
  exact (created_post_is_shown_to_its_author demo_PostForm 20
           (demo_request POST (Some bob) [("text", "hello")])
           (demo_request GET (Some bob) []) demo_store bob
           eq_refl eq_refl eq_refl).
Defined.

(** *** Comments on the detail page *)

Lemma insert_by_created_at_perm c l :
  Permutation (insert_by_created_at c l) (c :: l).
Proof.
  induction l as [|d l IH]; simpl; [reflexivity|].
  destruct (comment_created_at c <=? comment_created_at d); [reflexivity|].
  rewrite IH. apply perm_swap.
Qed.

Lemma order_by_created_at_perm l : Permutation (order_by_created_at l) l.
Proof.
  induction l as [|c l IH]; simpl; [reflexivity|].
  rewrite insert_by_created_at_perm. now constructor.
Qed.

Lemma insert_by_created_at_sorted c l :
  Sorted older l -> Sorted older (insert_by_created_at c l).
Proof.
  induction l as [|d l IH]; simpl; intros Hs.
  - repeat constructor.
  - destruct (comment_created_at c <=? comment_created_at d) eqn:E.
    + apply Z.leb_le in E. constructor; [exact Hs|]. now constructor.
    + apply Z.leb_gt in E. inversion Hs as [|? ? Hl Hd]; subst.
      constructor; [now apply IH|].
      destruct l as [|e l]; simpl.
      * constructor. unfold older. lia.
      * destruct (comment_created_at c <=? comment_created_at e);
          constructor; unfold older; try lia.
        now inversion Hd.
Qed.

Lemma order_by_created_at_sorted l : Sorted older (order_by_created_at l).
Proof.
  induction l as [|c l IH]; simpl; [constructor|].
  now apply insert_by_created_at_sorted.
Qed.

(** Whenever [post_detail] renders a page, the page carries the post of
    the requested id, an unbound comment form and exactly the comments of
    that post, each as often as in the table, oldest first. *)
Theorem post_detail_page_comments now request pid s s' template context :
  post_detail now request pid s = (s', render template context) ->
  exists post,
    s' = s /\ template = "blog/detail.html" /\ post_id post = pid
    /\ In post (posts s)
    /\ context
       = [("post", VPost post);
          ("form", VCommentForm (mkForm None None None));
          ("comments", VComments (detail_comments s pid))]
    /\ Sorted older (detail_comments s pid)
    /\ Permutation (detail_comments s pid)
         (filter (fun c => comment_post c =? pid) (comments s)).
Proof.
  unfold post_detail, get_object_or_404. intros H.
  assert (Hpage : forall rows post,
            get rows (fun p => post_id p =? pid) = Found post ->
            incl rows (posts s) ->
            (s, detail_page s post) = (s', render template context) ->
            exists post,
              s' = s /\ template = "blog/detail.html" /\ post_id post = pid
              /\ In post (posts s)
              /\ context
                 = [("post", VPost post);
                    ("form", VCommentForm (mkForm None None None));
                    ("comments", VComments (detail_comments s pid))]
              /\ Sorted older (detail_comments s pid)
              /\ Permutation (detail_comments s pid)
                   (filter (fun c => comment_post c =? pid) (comments s))).
  { intros rows post Hget Hincl E. apply get_Found in Hget as [Hin Hid].
    apply Z.eqb_eq in Hid. unfold detail_page in E. rewrite Hid in E.
    injection E as <- <- <-. exists post.
    repeat split; auto.
    - apply order_by_created_at_sorted.
    - apply order_by_created_at_perm. }
  destruct (get (posts s) (fun p => post_id p =? pid)) as [post| |] eqn:G;
    try discriminate.
  destruct (negb (is_user (request_user request) (post_author post))).
  - destruct (get (query_post now s (posts s) true)
                (fun p => post_id p =? pid)) as [post'| |] eqn:G';
      try discriminate.
    apply (Hpage _ post' G'); [|exact H].
    intros p Hp. unfold query_post in Hp. now apply filter_In in Hp.
  - apply (Hpage _ post G); [|exact H]. intros p Hp. exact Hp.
Qed.

Lemma post_detail_page_comments_witness :
  let request := demo_request GET None [] in
  post_detail 20 request 1 demo_store = (demo_store, detail_page demo_store post1)
  /\ exists post,
       post_id post = 1
       /\ Sorted older (detail_comments demo_store 1)
       /\ Permutation (detail_comments demo_store 1)
            (filter (fun c => comment_post c =? 1) (comments demo_store)).
Proof.
  cbv zeta. split; [reflexivity|].
  destruct (post_detail_page_comments 20 (demo_request GET None []) 1
              demo_store demo_store "blog/detail.html"
              [("post", VPost post1);
               ("form", VCommentForm (mkForm None None None));
               ("comments", VComments (detail_comments demo_store 1))]
              eq_refl)
    as [post [_ [_ [Hid [_ [_ [Hs Hp]]]]]]].
  exists post. split; [exact Hid|]. split; [exact Hs | exact Hp].
Defined.

Lemma post_detail_after_comment now viewer pid s l P :
  post_detail now viewer pid s = (s, detail_page s P) ->
  post_detail now viewer pid (set_comments s l)
  = (set_comments s l, detail_page (set_comments s l) P).
Proof.
  unfold post_detail, get_object_or_404, query_post.
  replace (visible now (set_comments s l)) with (visible now s)
    by reflexivity.
  cbn [posts set_comments].
  destruct (get (posts s) (fun p => post_id p =? pid)) as [post| |];
    try discriminate.
  destruct (negb (is_user (request_user viewer) (post_author post))).
  - destruct (get (filter (visible now s) (posts s))
                (fun p => post_id p =? pid)) as [post'| |];
      try discriminate.
    unfold detail_page. intros [= ->]. reflexivity.
  - unfold detail_page. intros [= ->]. reflexivity.
Qed.

(** [add_comment] followed by [post_detail]: a valid comment on a post
    does not change who is shown the post, and whoever was shown the page
    now finds on it the comments that were there and the new one, by the
    commenting user. *)
Theorem added_comment_is_on_the_page
    CommentForm now request viewer s user post P :
  request_user request = Some user ->
  get (posts s) (fun p => post_id p =? post_id post) = Found post ->
  is_valid CommentForm s (add_comment_form request) = true ->
  post_detail now viewer (post_id post) s = (s, detail_page s P) ->
  let s' := fst (add_comment CommentForm request (post_id post) s) in
  post_detail now viewer (post_id post) s' = (s', detail_page s' P)
  /\ exists comment,
       comment_author comment = user_id user
       /\ comment_body comment
          = comment_body
              (save_commit_False CommentForm (add_comment_form request))
       /\ Permutation (detail_comments s' (post_id post))
            (comment :: detail_comments s (post_id post)).
Proof.
  intros Hu Hget Hv Hpage s'.
  assert (Hs' : s' = insert_comment s
                  (set_comment_author
                     (set_comment_post
                        (save_commit_False CommentForm
                           (add_comment_form request))
                        (post_id post))
                     (user_id user))).
  { unfold s', add_comment, login_required, get_object_or_404.
    rewrite Hu, Hget. fold (add_comment_form request). now rewrite Hv. }
  rewrite Hs'. unfold insert_comment.
  match goal with
  | |- context [set_comments s (_ ++ [?c])] => set (comment := c)
  end.
  split.
  - now apply post_detail_after_comment.
  - exists comment. split; [|split]; [reflexivity | reflexivity |].
    unfold detail_comments. cbn [comments set_comments].
    rewrite filter_app. simpl. rewrite Z.eqb_refl.
    rewrite order_by_created_at_perm.
    rewrite <- Permutation_cons_append. constructor.
    symmetry. apply order_by_created_at_perm.
Qed.

Lemma added_comment_is_on_the_page_witness :
  let request := demo_request POST (Some bob) [("text", "nice")] in
  let viewer := demo_request GET None [] in
  let s' := fst (add_comment demo_CommentForm request 1 demo_store) in
  (request_user request = Some bob
   /\ get (posts demo_store) (fun p => post_id p =? post_id post1) = Found post1
   /\ is_valid demo_CommentForm demo_store (add_comment_form request) = true
   /\ post_detail 20 viewer 1 demo_store
      = (demo_store, detail_page demo_store post1))
  /\ post_detail 20 viewer 1 s' = (s', detail_page s' post1)
  /\ Permutation (detail_comments s' 1) [comment1; mkComment 2 1 2 "nice" 0].
Proof.
  cbv zeta.
  split; [split; [reflexivity | split; [reflexivity | split; reflexivity]]|].
  split; [|apply perm_swap].
  exact (proj1 (added_comment_is_on_the_page demo_CommentForm 20
                  (demo_request POST (Some bob) [("text", "nice")])
                  (demo_request GET None []) demo_store bob post1 post1
                  eq_refl eq_refl eq_refl eq_refl)).
Defined.

(** ** Listings *)

(** [profile]: an unknown user name is not found.  For a known user the
    page lists posts of that user only; to the user it lists all of them,
    hidden ones too, and to anyone else, anonymous visitors too, exactly
    the visible ones. *)
Theorem profile_listing POSTS_ON_PAGE now request name s :
  ((forall u, In u (users s) -> username u <> name) ->
   profile POSTS_ON_PAGE now request name s = (s, Http404))
  /\ (forall u,
        get (users s) (fun v => (username v =? name)%string) = Found u ->
        exists listing,
          profile POSTS_ON_PAGE now request name s
          = (s, profile_page POSTS_ON_PAGE request u listing)
          /\ (is_user (request_user request) (user_id u) = true ->
              forall p, In p listing <->
                        In p (posts s) /\ post_author p = user_id u)
          /\ (is_user (request_user request) (user_id u) = false ->
              forall p, In p listing <->
                        In p (posts s) /\ post_author p = user_id u
                        /\ visible now s p = true)).
Proof.
  unfold profile, get_object_or_404. split.
  - intros Hnone. rewrite get_NotFound; [reflexivity|].
    intros u Hu. apply String.eqb_neq. now apply Hnone.
  - intros u Hget. rewrite Hget. eexists. split; [reflexivity|].
    split; intros Hme p; rewrite Hme; unfold query_post; simpl;
      rewrite ?filter_In, Z.eqb_eq; tauto.
Qed.

(** Whenever [category_posts] renders a page, the category on it is
    published and has the requested slug, and every post on the page is a
    visible post of that category. *)
Theorem category_page_lists_its_visible_posts
    POSTS_ON_PAGE now request slug s s' template context :
  category_posts POSTS_ON_PAGE now request slug s
  = (s', render template context) ->
  exists category page,
    s' = s
    /\ context = [("category", VCategory category); ("page_obj", VPage page)]
    /\ In category (categories s)
    /\ category_slug category = slug
    /\ category_is_published category = true
    /\ (List.length (object_list page) <= Pos.to_nat POSTS_ON_PAGE)%nat
    /\ forall p, In p (object_list page) ->
                 In p (posts s)
                 /\ post_category p = category_id category
                 /\ visible now s p = true.
Proof.
  unfold category_posts, get_object_or_404.
  destruct (get (categories s) _) as [category| |] eqn:G; try discriminate.
  intros [= <- <- <-]. apply get_Found in G as [Hin Hc].
  apply andb_prop in Hc as [Hslug Hpub]. apply String.eqb_eq in Hslug.
  do 2 eexists. split; [reflexivity|]. split; [reflexivity|].
  split; [exact Hin|]. split; [exact Hslug|]. split; [exact Hpub|].
  unfold posts_pagination.
  match goal with
  | |- context [get_page ?per ?page ?l] =>
      destruct (get_page_object_list per page l) as [_ [Hlen Hincl]]
  end.
  split; [exact Hlen|]. intros p Hp. apply Hincl in Hp.
  unfold query_post in Hp. apply filter_In in Hp as [Hp Hvis].
  apply filter_In in Hp as [Hp Hcat]. apply Z.eqb_eq in Hcat. auto.
Qed.

Lemma category_page_lists_its_visible_posts_witness :
  let request := demo_request GET None [] in
  category_posts 10 20 request "travel" demo_store
  = (demo_store, category_page 10 20 request demo_store travel)
  /\ exists category page,
       category_page 10 20 request demo_store travel
       = render "blog/category.html"
           [("category", VCategory category); ("page_obj", VPage page)]
       /\ category_slug category = "travel"
       /\ forall p, In p (object_list page) -> visible 20 demo_store p = true.
Proof.
  cbv zeta. split; [reflexivity|].
  destruct (category_page_lists_its_visible_posts 10 20
              (demo_request GET None []) "travel" demo_store demo_store
              "blog/category.html"
              [("category", VCategory travel);
               ("page_obj",
                VPage
                  (posts_pagination 10 (demo_request GET None [])
                     (query_post 20 demo_store
                        (filter (fun p => post_category p =? category_id travel)
                           (posts demo_store))
                        true)))]
              eq_refl)
    as [category [page [_ [Hctx [_ [Hslug [_ [_ Hposts]]]]]]]].
  exists category, page. split.
  - unfold category_page. now rewrite Hctx.
  - split; [exact Hslug|]. intros p Hp. now apply Hposts.
Defined.

(** ** An author's comment *)

(** An author's [edit_comment]: an invalid or missing submission changes
    nothing and shows the form on the comment; a valid one saves the
    comment the form builds and redirects to the detail page of the URL's
    post.  When the form keeps the primary key, the saved comment is the
    one its id now finds and every other comment is still there; the post
    table is never touched. *)
Theorem edit_comment_by_author CommentForm request s user pid cid comment :
  request_user request = Some user ->
  get (comments s) (fun c => comment_id c =? cid) = Found comment ->
  user_id user = comment_author comment ->
  let form := edit_comment_form request comment in
  let saved := save_commit_False CommentForm form in
  (is_valid CommentForm s form = false ->
   edit_comment CommentForm request pid cid s
   = (s, render "blog/comment.html"
           [("form", VCommentForm form); ("comment", VComment comment)]))
  /\ (is_valid CommentForm s form = true ->
      edit_comment CommentForm request pid cid s
      = (update_comment s saved, redirect (blog_post_detail pid))
      /\ posts (update_comment s saved) = posts s
      /\ (comment_id saved = cid ->
          get (comments (update_comment s saved))
            (fun c => comment_id c =? cid)
          = Found saved
          /\ (forall d, In d (comments s) -> comment_id d <> cid ->
                        In d (comments (update_comment s saved))))).
Proof.
  intros Hu Hget Hau form saved.
  assert (Hview : edit_comment CommentForm request pid cid s
                  = if is_valid CommentForm s form
                    then (update_comment s saved,
                          redirect (blog_post_detail pid))
                    else (s, render "blog/comment.html"
                               [("form", VCommentForm form);
                                ("comment", VComment comment)])).
  { unfold edit_comment, login_required, get_object_or_404.
    rewrite Hu, Hget. apply Z.eqb_eq in Hau. now rewrite Hau. }
  split; intros Hv; rewrite Hview, Hv; [reflexivity|].
  split; [reflexivity|].
  split; [unfold update_comment; now destruct (existsb _ _)|].
  intros Hkey. subst cid.
  unfold update_comment. rewrite (existsb_of_get comment_id _ _ _ Hget). simpl.
  split; [now apply get_after_replace with comment|].
  intros d Hd Hne. now apply In_other_after_replace.
Qed.

Lemma edit_comment_by_author_witness :
  let request := demo_request POST (Some alice) [("text", "hi again")] in
  let saved := mkComment 1 1 1 "hi again" 11 in
  (request_user request = Some alice
   /\ get (comments demo_store) (fun c => comment_id c =? 1) = Found comment1
   /\ user_id alice = comment_author comment1)
  /\ edit_comment demo_CommentForm request 1 1 demo_store
     = (set_comments demo_store [saved], redirect (blog_post_detail 1)).
Proof.
  cbv zeta. split; [split; [reflexivity | split; reflexivity]|].
  destruct (edit_comment_by_author demo_CommentForm
              (demo_request POST (Some alice) [("text", "hi again")])
              demo_store alice 1 1 comment1 eq_refl eq_refl eq_refl)
    as [_ Hvalid].
  exact (proj1 (Hvalid eq_refl)).
Defined.

(** An author's [delete_comment]: a GET request changes nothing and shows
    the confirmation page; a POST request removes the comment, and only
    it, and redirects to the detail page of the URL's post. *)
Theorem delete_comment_by_author request s user pid cid comment :
  request_user request = Some user ->
  get (comments s) (fun c => comment_id c =? cid) = Found comment ->
  user_id user = comment_author comment ->
  (request_method request = GET ->
   delete_comment request pid cid s
   = (s, render "blog/comment.html" [("comment", VComment comment)]))
  /\ (request_method request = POST ->
      let s' := delete_comment_row s comment in
      delete_comment request pid cid s = (s', redirect (blog_post_detail pid))
      /\ posts s' = posts s
      /\ (forall d, In d (comments s') <->
                    In d (comments s) /\ comment_id d <> cid)
      /\ get (comments s') (fun c => comment_id c =? cid) = NotFound).
Proof.
  intros Hu Hget Hau.
  assert (Hid : comment_id comment = cid).
  { apply get_Found in Hget as [_ H]. now apply Z.eqb_eq. }
  apply Z.eqb_eq in Hau.
  split; intros Hm.
  - unfold delete_comment, login_required, get_object_or_404.
    now rewrite Hu, Hget, Hau, Hm.
  - cbv zeta. split; [|split; [|split]].
    + unfold delete_comment, login_required, get_object_or_404.
      now rewrite Hu, Hget, Hau, Hm.
    + reflexivity.
    + intros d. simpl. rewrite filter_In, Hid, negb_true_iff, Z.eqb_neq.
      reflexivity.
    + simpl. rewrite Hid. apply get_after_delete.
Qed.

Lemma delete_comment_by_author_witness :
  let request := demo_request POST (Some alice) [] in
  (request_user request = Some alice
   /\ get (comments demo_store) (fun c => comment_id c =? 1) = Found comment1
   /\ user_id alice = comment_author comment1)
  /\ delete_comment request 1 1 demo_store
     = (set_comments demo_store [], redirect (blog_post_detail 1)).
Proof.
  cbv zeta. split; [split; [reflexivity | split; reflexivity]|].
  exact (proj1 (proj2 (delete_comment_by_author
                         (demo_request POST (Some alice) []) demo_store
                         alice 1 1 comment1 eq_refl eq_refl eq_refl)
                  eq_refl)).
Defined.

(** ** Visible posts and unambiguous lookups *)

(** A visible post is shown to every requester, anonymous visitors too. *)
Theorem post_detail_of_visible_post now request s P :
  get (posts s) (fun p => post_id p =? post_id P) = Found P ->
  visible now s P = true ->
  post_detail now request (post_id P) s = (s, detail_page s P).
Proof.
  intros Hget Hvis. unfold post_detail, get_object_or_404, query_post.
  rewrite Hget.
  destruct (negb (is_user (request_user request) (post_author P)));
    [|reflexivity].
  now rewrite (get_filter _ _ (visible now s) _ Hget), Hvis.
Qed.

Lemma post_detail_of_visible_post_witness :
  (get (posts demo_store) (fun p => post_id p =? post_id post1) = Found post1
   /\ visible 20 demo_store post1 = true)
  /\ post_detail 20 (demo_request GET None []) 1 demo_store
     = (demo_store, detail_page demo_store post1).
Proof.
  split; [split; reflexivity|].
  exact (post_detail_of_visible_post 20 (demo_request GET None [])
           demo_store post1 eq_refl eq_refl).
Defined.

Lemma get_unique_key {A K} (key : A -> K) (k : K) (cond : A -> bool)
    (l : list A) :
  NoDup (map key l) ->
  (forall a, In a l -> cond a = true -> key a = k) ->
  get l cond <> Multiple.
Proof.
  intros Hnd Hkey.
  assert (Hlen : (List.length (filter cond l) <= 1)%nat).
  { induction l as [|a l IH]; simpl; [lia|].
    inversion Hnd as [|? ? Ha Hl]; subst.
    destruct (cond a) eqn:Ca.
    - rewrite filter_none; [simpl; lia|].
      intros b Hb. destruct (cond b) eqn:Cb; [|reflexivity].
      exfalso. apply Ha.
      rewrite (Hkey a (or_introl eq_refl) Ca), <- (Hkey b (or_intror Hb) Cb).
      now apply in_map.
    - apply IH; [exact Hl|]. intros b Hb. apply Hkey. now right. }
  unfold get. destruct (filter cond l) as [|a [|b r]]; try discriminate.
  simpl in Hlen. lia.
Qed.

(** With primary keys, user names and slugs unique, no view ever answers
    with the server error of an ambiguous lookup. *)
Theorem lookups_are_unambiguous
    PostForm CommentForm ProfileForm POSTS_ON_PAGE now v request s :
  unique_keys s ->
  unique_names s ->
  snd (handle PostForm CommentForm ProfileForm POSTS_ON_PAGE now v request s)
  <> MultipleObjectsReturned.
Proof.
  intros (Hu & Hc & Hp & Hm) (Hn & Hs).
  assert (Gp : forall pid, get (posts s) (fun p => post_id p =? pid)
                           <> Multiple).
  { intros pid. apply (get_unique_key post_id pid); [exact Hp|].
    intros a _ H. now apply Z.eqb_eq. }
  assert (Gv : forall pid, get (query_post now s (posts s) true)
                             (fun p => post_id p =? pid) <> Multiple).
  { intros pid. apply (get_unique_key post_id pid).
    - now apply NoDup_map_filter.
    - intros a _ H. now apply Z.eqb_eq. }
  assert (Gm : forall cid, get (comments s) (fun c => comment_id c =? cid)
                           <> Multiple).
  { intros cid. apply (get_unique_key comment_id cid); [exact Hm|].
    intros a _ H. now apply Z.eqb_eq. }
  assert (Gn : forall name, get (users s)
                              (fun u => (username u =? name)%string)
                            <> Multiple).
  { intros name. apply (get_unique_key username name); [exact Hn|].
    intros a _ H. now apply String.eqb_eq. }
  assert (Gs : forall slug, get (categories s)
                              (fun c => (category_slug c =? slug)%string
                                        && category_is_published c)
                            <> Multiple).
  { intros slug. apply (get_unique_key category_slug slug); [exact Hs|].
    intros a _ H. apply andb_prop in H as [H _]. now apply String.eqb_eq. }
  destruct v as [|slug|pid|name| | |pid|[pid|pid|pid cid|pid cid]];
    unfold handle, dispatch, index, category_posts, post_detail, profile,
      create_post, edit_post, delete_post, edit_profile, add_comment,
      edit_comment, delete_comment, login_required, get_object_or_404;
    try specialize (Gp pid); try specialize (Gv pid);
    try specialize (Gm cid); try specialize (Gn name);
    try specialize (Gs slug);
    repeat match goal with
      | |- context [match request_user request with _ => _ end] =>
          destruct (request_user request)
      | |- context [match get ?rows ?cond with _ => _ end] =>
          destruct (get rows cond)
      | |- context [if negb ?b then _ else _] => destruct b; simpl
      | |- context [if is_valid ?F ?s ?f then _ else _] =>
          destruct (is_valid F s f)
      | |- context [if method_is_POST ?m then _ else _] =>
          destruct (method_is_POST m)
      end;
    simpl; congruence.
Qed.

Lemma demo_store_unique_names : unique_names demo_store.
Proof.
  unfold unique_names. simpl.
  split; repeat constructor; simpl; intuition discriminate.
Qed.

Lemma lookups_are_unambiguous_witness :
  (unique_keys demo_store /\ unique_names demo_store)
  /\ snd (handle demo_PostForm demo_CommentForm demo_ProfileForm 10 20
            (PostDetail 1) (demo_request GET None []) demo_store)
     <> MultipleObjectsReturned.
Proof.
  split; [split; [exact demo_store_unique_keys | exact demo_store_unique_names]|].
  exact (lookups_are_unambiguous demo_PostForm demo_CommentForm
           demo_ProfileForm 10 20 (PostDetail 1) (demo_request GET None [])
           demo_store demo_store_unique_keys demo_store_unique_names).
Defined.
